(** * Villa-rental booking site: the admin villa router and the booking lifecycle

    A shallow embedding of
    - the Express router of the villa document (GET, PATCH, the bank-details,
      slide, background, PromptPay and room routes), and
    - the payment page of the booking flow (PaymentMethod.tsx) together with
      the booking lifecycle it talks to, and
    - the form of the admin page (AdminVilla.tsx) with the two handlers that
      call the router: [handleSubmit], whose [axios.patch('/admin/villa')] is
      [PATCH /] of the router, and [handleDeleteSlideImage], whose
      [villaApi.deleteSlideImage] is [DELETE /slides/:index].

    Conventions of the embedding.
    - A parsed JSON value is a [jsval]; [JUndefined] is the value of an
      absent property.
    - Numeric request fields are JSON numbers or absent, as the admin form
      types them ([number] in AdminVilla.tsx); they are [option Z], [None]
      being [undefined]. Amounts are whole currency units.
    - The villa collection holds at most one document: [option Villa].
    - A handler is a computation over the collection that can complete, answer
      early ([return res.status(..).json(..)]) or throw into its [catch]. *)

From Stdlib Require Import ZArith Lia Ascii String.
From stdpp Require Import base option list strings gmap.

Set Warnings "-register-all".

Open Scope string_scope.
Open Scope Z_scope.

(* ===================================================================== *)
(** ** JavaScript values *)
(* ===================================================================== *)

Module Js.

Inductive jsval : Type :=
  | JUndefined
  | JNull
  | JBool (b : bool)
  | JNum (n : Z)
  | JStr (s : string)
  | JArr (xs : list jsval)
  | JObj (fields : list (string * jsval)).

(** [!!s] on a string: the empty string is falsy. *)
Definition str_truthy (s : string) : bool :=
  match s with EmptyString => false | String _ _ => true end.

(** Truthiness of a value that is a string, [null] or [undefined]. *)
Definition opt_truthy (o : option string) : bool :=
  match o with Some s => str_truthy s | None => false end.

(** ToBoolean. *)
Definition truthy (v : jsval) : bool :=
  match v with
  | JUndefined | JNull => false
  | JBool b => b
  | JNum n => negb (n =? 0)
  | JStr s => str_truthy s
  | JArr _ | JObj _ => true
  end.

(** Own property of an object literal; the last binding of a key wins. *)
Fixpoint assoc (k : string) (fields : list (string * jsval)) : jsval :=
  match fields with
  | [] => JUndefined
  | (k', v) :: rest =>
      match assoc k rest with
      | JUndefined => if String.eqb k k' then v else JUndefined
      | found => found
      end
  end.

(** [v.k]: a TypeError ([None]) on [undefined] and [null], [undefined] on the
    other primitives and on arrays (for the non-index keys used here). *)
Definition get (v : jsval) (k : string) : option jsval :=
  match v with
  | JUndefined | JNull => None
  | JObj fields => Some (assoc k fields)
  | _ => Some JUndefined
  end.

(** [v?.k]. *)
Definition get_opt (v : jsval) (k : string) : jsval :=
  match get v k with Some x => x | None => JUndefined end.

(** [a || b]. *)
Definition or_else (a b : jsval) : jsval := if truthy a then a else b.

Definition isArray (v : jsval) : bool :=
  match v with JArr _ => true | _ => false end.

(** [a > b] and [a >= b] on numbers; a comparison with [undefined] goes
    through NaN and is false. *)
Definition gt (a b : option Z) : bool :=
  match a, b with Some x, Some y => y <? x | _, _ => false end.

Definition ge (a b : option Z) : bool :=
  match a, b with Some x, Some y => y <=? x | _, _ => false end.

(** White space of [String.prototype.trim] and of the regular expression
    class [\s], on the ASCII range. *)
Definition is_space (a : ascii) : bool :=
  let n := nat_of_ascii a in
  ((9 <=? n) && (n <=? 13))%nat || (n =? 32)%nat.

Fixpoint trimStart (s : string) : string :=
  match s with
  | EmptyString => EmptyString
  | String a rest => if is_space a then trimStart rest else s
  end.

Fixpoint trimEnd (s : string) : string :=
  match s with
  | EmptyString => EmptyString
  | String a rest =>
      match trimEnd rest with
      | EmptyString => if is_space a then EmptyString else String a EmptyString
      | kept => String a kept
      end
  end.

Definition trim (s : string) : string := trimEnd (trimStart s).

(** [s.replace(/\s+/g, '-')]: every maximal run of white space becomes one
    dash. [in_run] tells that the previous character was white space. *)
Fixpoint dash_runs (in_run : bool) (s : string) : string :=
  match s with
  | EmptyString => EmptyString
  | String a rest =>
      if is_space a
      then (if in_run then dash_runs true rest
            else String "-"%char (dash_runs true rest))
      else String a (dash_runs false rest)
  end.

Definition replace_spaces (s : string) : string := dash_runs false s.

(** A method call [v.trim()]: only strings have the method. *)
Definition call_trim (v : jsval) : option string :=
  match v with JStr s => Some (trim s) | _ => None end.

(** [arr[i]] for an integer key: [undefined] outside the array. *)
Definition index {A : Type} (l : list (option A)) (i : Z) : option A :=
  if i <? 0 then None else mjoin (l !! Z.to_nat i).

End Js.

Export Js.

(* ===================================================================== *)
(** ** The villa document and the handler monad *)
(* ===================================================================== *)

Module VillaStore.

Record Room : Type := mkRoom {
  room_name : jsval;
  room_description : jsval;
  images : list string
}.

Record PromptPay : Type := mkPromptPay { qrImage : option string }.

(** A bilingual text block of the schema. *)
Record Bilingual : Type := mkBilingual { en : jsval; th : jsval }.

(** Modelled from the spec: the villa record (models/Villa is missing from
    the sources), with the fields the router reads and writes. The handlers
    assign [name], [title] and [description] whole and read
    [villa.beachfront.en] and [villa.beachfront.th] unguarded: [beachfront] is
    a bilingual block of the document. A slide entry is [None] where the
    array holds [undefined] or [null]. *)
Record Villa : Type := mkVilla {
  name : jsval;
  title : jsval;
  description : jsval;
  beachfront : Bilingual;
  pricePerNight : option Z;
  discountedPrice : option Z;
  priceReductionPerRoom : option Z;
  maxGuests : option Z;
  bedrooms : option Z;
  minRooms : option Z;
  bathrooms : option Z;
  backgroundImage : option string;
  slideImages : list (option string);
  rooms : list Room;
  bankDetails : jsval;
  promptPay : option PromptPay
}.

(** Field assignments [villa.f = x]. *)
Definition set_name x (v : Villa) : Villa :=
  mkVilla x (title v) (description v) (beachfront v) (pricePerNight v) (discountedPrice v)
          (priceReductionPerRoom v) (maxGuests v) (bedrooms v) (minRooms v) (bathrooms v) (backgroundImage v)
          (slideImages v) (rooms v) (bankDetails v) (promptPay v).
Definition set_title x (v : Villa) : Villa :=
  mkVilla (name v) x (description v) (beachfront v) (pricePerNight v) (discountedPrice v)
          (priceReductionPerRoom v) (maxGuests v) (bedrooms v) (minRooms v) (bathrooms v) (backgroundImage v)
          (slideImages v) (rooms v) (bankDetails v) (promptPay v).
Definition set_description x (v : Villa) : Villa :=
  mkVilla (name v) (title v) x (beachfront v) (pricePerNight v) (discountedPrice v)
          (priceReductionPerRoom v) (maxGuests v) (bedrooms v) (minRooms v) (bathrooms v) (backgroundImage v)
          (slideImages v) (rooms v) (bankDetails v) (promptPay v).
Definition set_beachfront x (v : Villa) : Villa :=
  mkVilla (name v) (title v) (description v) x (pricePerNight v) (discountedPrice v)
          (priceReductionPerRoom v) (maxGuests v) (bedrooms v) (minRooms v) (bathrooms v) (backgroundImage v)
          (slideImages v) (rooms v) (bankDetails v) (promptPay v).
Definition set_pricePerNight x (v : Villa) : Villa :=
  mkVilla (name v) (title v) (description v) (beachfront v) x (discountedPrice v)
          (priceReductionPerRoom v) (maxGuests v) (bedrooms v) (minRooms v) (bathrooms v) (backgroundImage v)
          (slideImages v) (rooms v) (bankDetails v) (promptPay v).
Definition set_discountedPrice x (v : Villa) : Villa :=
  mkVilla (name v) (title v) (description v) (beachfront v) (pricePerNight v) x
          (priceReductionPerRoom v) (maxGuests v) (bedrooms v) (minRooms v) (bathrooms v) (backgroundImage v)
          (slideImages v) (rooms v) (bankDetails v) (promptPay v).
Definition set_priceReductionPerRoom x (v : Villa) : Villa :=
  mkVilla (name v) (title v) (description v) (beachfront v) (pricePerNight v) (discountedPrice v)
          x (maxGuests v) (bedrooms v) (minRooms v) (bathrooms v) (backgroundImage v)
          (slideImages v) (rooms v) (bankDetails v) (promptPay v).
Definition set_maxGuests x (v : Villa) : Villa :=
  mkVilla (name v) (title v) (description v) (beachfront v) (pricePerNight v) (discountedPrice v)
          (priceReductionPerRoom v) x (bedrooms v) (minRooms v) (bathrooms v) (backgroundImage v)
          (slideImages v) (rooms v) (bankDetails v) (promptPay v).
Definition set_bedrooms x (v : Villa) : Villa :=
  mkVilla (name v) (title v) (description v) (beachfront v) (pricePerNight v) (discountedPrice v)
          (priceReductionPerRoom v) (maxGuests v) x (minRooms v) (bathrooms v) (backgroundImage v)
          (slideImages v) (rooms v) (bankDetails v) (promptPay v).
Definition set_minRooms x (v : Villa) : Villa :=
  mkVilla (name v) (title v) (description v) (beachfront v) (pricePerNight v) (discountedPrice v)
          (priceReductionPerRoom v) (maxGuests v) (bedrooms v) x (bathrooms v) (backgroundImage v)
          (slideImages v) (rooms v) (bankDetails v) (promptPay v).
Definition set_bathrooms x (v : Villa) : Villa :=
  mkVilla (name v) (title v) (description v) (beachfront v) (pricePerNight v) (discountedPrice v)
          (priceReductionPerRoom v) (maxGuests v) (bedrooms v) (minRooms v) x (backgroundImage v)
          (slideImages v) (rooms v) (bankDetails v) (promptPay v).
Definition set_backgroundImage x (v : Villa) : Villa :=
  mkVilla (name v) (title v) (description v) (beachfront v) (pricePerNight v) (discountedPrice v)
          (priceReductionPerRoom v) (maxGuests v) (bedrooms v) (minRooms v) (bathrooms v) x
          (slideImages v) (rooms v) (bankDetails v) (promptPay v).
Definition set_slideImages x (v : Villa) : Villa :=
  mkVilla (name v) (title v) (description v) (beachfront v) (pricePerNight v) (discountedPrice v)
          (priceReductionPerRoom v) (maxGuests v) (bedrooms v) (minRooms v) (bathrooms v) (backgroundImage v)
          x (rooms v) (bankDetails v) (promptPay v).
Definition set_rooms x (v : Villa) : Villa :=
  mkVilla (name v) (title v) (description v) (beachfront v) (pricePerNight v) (discountedPrice v)
          (priceReductionPerRoom v) (maxGuests v) (bedrooms v) (minRooms v) (bathrooms v) (backgroundImage v)
          (slideImages v) x (bankDetails v) (promptPay v).
Definition set_bankDetails x (v : Villa) : Villa :=
  mkVilla (name v) (title v) (description v) (beachfront v) (pricePerNight v) (discountedPrice v)
          (priceReductionPerRoom v) (maxGuests v) (bedrooms v) (minRooms v) (bathrooms v) (backgroundImage v)
          (slideImages v) (rooms v) x (promptPay v).
Definition set_promptPay x (v : Villa) : Villa :=
  mkVilla (name v) (title v) (description v) (beachfront v) (pricePerNight v) (discountedPrice v)
          (priceReductionPerRoom v) (maxGuests v) (bedrooms v) (minRooms v) (bathrooms v) (backgroundImage v)
          (slideImages v) (rooms v) (bankDetails v) x.

(** What [res.json] carries besides the message. *)
Inductive payload : Type :=
  | NoData
  | VillaDoc (v : Villa)
  | BankList (b : jsval)
  | SlideList (l : list (option string))
  | Url (u : string).

Record response : Type := mkResponse {
  status : nat;
  message : option string;
  data : payload
}.

Definition fail (code : nat) (msg : string) : response :=
  mkResponse code (Some msg) NoData.

(** How a stretch of a handler ends: it goes on with a value, it answers
    ([return res...]), or it throws. *)
Inductive outcome (A : Type) : Type :=
  | Next (a : A)
  | Reply (r : response)
  | Throw.
Arguments Next {A} a.
Arguments Reply {A} r.
Arguments Throw {A}.

(** A handler step reads and writes the collection. *)
Definition M (A : Type) : Type := option Villa → outcome A * option Villa.

#[export] Instance M_ret : MRet M := λ A a db, (Next a, db).

#[export] Instance M_bind : MBind M := λ A B f m db,
  match m db with
  | (Next a, db') => f a db'
  | (Reply r, db') => (Reply r, db')
  | (Throw, db') => (Throw, db')
  end.

Definition reply {A : Type} (r : response) : M A := λ db, (Reply r, db).
Definition throw {A : Type} : M A := λ db, (Throw, db).

(** An operation of the runtime that throws when it has no result. *)
Definition or_throw {A : Type} (o : option A) : M A :=
  match o with Some a => mret a | None => throw end.

(** [if (c) return res.status(..).json(..)]. *)
Definition reject_if (c : bool) (r : response) : M unit :=
  if c then reply r else mret tt.

(** [Villa.findOne()]. *)
Definition findOne : M (option Villa) := λ db, (Next db, db).

(** The [try { .. } catch { res.status(500).. }] around a handler body. *)
Definition handle (on_error : response) (body : M response)
    (db : option Villa) : response * option Villa :=
  match body db with
  | (Next r, db') => (r, db')
  | (Reply r, db') => (r, db')
  | (Throw, db') => (on_error, db')
  end.

End VillaStore.

Export VillaStore.

(* ===================================================================== *)
(** ** The villa router *)
(* ===================================================================== *)

Module VillaRouter.

(** The body of [PATCH /] after destructuring. *)
Record villa_body : Type := mkBody {
  b_name : jsval;
  b_title : jsval;
  b_description : jsval;
  b_beachfront : jsval;
  b_maxGuests : option Z;
  b_bedrooms : option Z;
  b_minRooms : option Z;
  b_bathrooms : option Z;
  b_pricePerNight : option Z;
  b_discountedPrice : option Z;
  b_priceReductionPerRoom : option Z;
  b_bankDetails : jsval;
  b_promptPay : option (option PromptPay)
}.

(** The empty body [{}]. In [b_promptPay], [None] is an absent property and
    [Some None] is [null]. *)
Definition empty_body : villa_body :=
  mkBody JUndefined JUndefined JUndefined JUndefined
         None None None None None None None JUndefined None.

Section Router.

(** What the sources leave to the model file and to the runtime:
    - [newVilla] is the document [new Villa()] builds from the schema defaults;
    - [schema_ok] tells whether [save] accepts a document (it throws a
      validation error otherwise);
    - [CLIENT_URL] is [process.env.CLIENT_URL];
    - [JSON_parse] is [JSON.parse], [None] where it throws. *)
Variable newVilla : Villa.
Variable schema_ok : Villa → bool.
Variable CLIENT_URL : string.
Variable JSON_parse : string → option jsval.

(** [villa.save()]. *)
Definition save (v : Villa) : M unit :=
  λ db, if schema_ok v then (Next tt, Some v) else (Throw, db).

(** [Villa.create(fields)]: the given fields over the schema defaults. *)
Definition villa_defaults : Villa :=
  set_bathrooms (Some 3)
    (set_bedrooms (Some 3)
      (set_maxGuests (Some 6)
        (set_pricePerNight (Some 299)
          (set_beachfront
             (mkBilingual (JStr "Direct access to the beach")
                          (JStr "เข้าถึงชายหาดได้โดยตรง"))
            (set_description
               (JObj [("en", JStr "A luxurious villa with modern amenities");
                      ("th", JStr "วิลล่าหรูพร้อมสิ่งอำนวยความสะดวกทันสมัย")])
              (set_title
                 (JObj [("en", JStr "Experience Luxury Like Never Before");
                        ("th", JStr "สัมผัสประสบการณ์ความหรูหราที่ไม่เคยมีมาก่อน")])
                (set_name
                   (JObj [("en", JStr "Villa Paradise");
                          ("th", JStr "วิลล่า พาราไดซ์")])
                   newVilla))))))).

Definition create (v : Villa) : M Villa := save v;; mret v.

(** *** GET / *)
Definition get_villa_body : M response :=
  found ← findOne;
  villa ← match found with
          | Some v => mret v
          | None => create villa_defaults
          end;
  mret (mkResponse 200 None (VillaDoc villa)).

Definition get_villa := handle (fail 500 "Error getting villa details") get_villa_body.

(** *** PATCH /bank-details *)

(** [!bank.bank || !bank.accountNumber || !bank.accountName]; reading a
    property of [null] throws. *)
Definition lacks_field (bank : jsval) : option bool :=
  b ← get bank "bank";
  n ← get bank "accountNumber";
  a ← get bank "accountName";
  Some (negb (truthy b) || negb (truthy n) || negb (truthy a)).

Fixpoint validate_banks (banks : list jsval) : M unit :=
  match banks with
  | [] => mret tt
  | bank :: rest =>
      bad ← or_throw (lacks_field bank);
      reject_if bad
        (fail 400 "Each bank detail must include bank name, account number, and account name");;
      validate_banks rest
  end.

Definition format_bank (bank : jsval) : option jsval :=
  b ← get bank "bank" ≫= call_trim;
  n ← get bank "accountNumber" ≫= call_trim;
  a ← get bank "accountName" ≫= call_trim;
  Some (JObj [("bank", JStr b);
              ("accountNumber", JStr (replace_spaces n));
              ("accountName", JStr a)]).

Definition patch_bank_details_body (body : jsval) : M response :=
  given ← or_throw (get body "bankDetails");
  match given with
  | JArr banks =>
      validate_banks banks;;
      found ← findOne;
      let villa := default newVilla found in
      formatted ← or_throw (mapM format_bank banks);
      let villa := set_bankDetails (JArr formatted) villa in
      save villa;;
      mret (mkResponse 200 (Some "Bank details updated successfully")
                       (BankList (bankDetails villa)))
  | _ => reply (fail 400 "Bank details must be an array")
  end.

Definition patch_bank_details (body : jsval) :=
  handle (fail 500 "Error updating bank details") (patch_bank_details_body body).

(** *** PATCH / *)

Definition texts_given (b : villa_body) : bool :=
  truthy (get_opt (b_name b) "en") && truthy (get_opt (b_name b) "th")
  && truthy (get_opt (b_title b) "en") && truthy (get_opt (b_title b) "th")
  && truthy (get_opt (b_description b) "en")
  && truthy (get_opt (b_description b) "th").

(** [// Update fields if provided] *)
Definition assign_texts (b : villa_body) (villa : Villa) : Villa :=
  if texts_given b
  then set_description (b_description b)
         (set_title (b_title b) (set_name (b_name b) villa))
  else villa.

(** [// Update optional beachfront if provided] *)
Definition assign_beachfront (b : villa_body) (villa : Villa) : Villa :=
  if truthy (b_beachfront b)
  then set_beachfront
         (mkBilingual
            (or_else (get_opt (b_beachfront b) "en") (en (beachfront villa)))
            (or_else (get_opt (b_beachfront b) "th") (th (beachfront villa))))
         villa
  else villa.

(** [// Update pricePerNight if provided] *)
Definition assign_pricePerNight (b : villa_body) (villa : Villa) : Villa :=
  if b_pricePerNight b is Some _
  then set_pricePerNight (b_pricePerNight b) villa else villa.

(** [// Update discountedPrice if provided], with its check against the
    [pricePerNight] of the request. *)
Definition assign_discountedPrice (b : villa_body) (villa : Villa) : Villa :=
  if b_discountedPrice b is Some _
  then set_discountedPrice (b_discountedPrice b) villa else villa.

Definition update_discountedPrice (b : villa_body) (villa : Villa) : M Villa :=
  if b_discountedPrice b is Some _
  then reject_if (gt (b_discountedPrice b) (Some 0)
                  && ge (b_discountedPrice b) (b_pricePerNight b))
         (fail 400 "Discounted price must be less than regular price");;
       mret (set_discountedPrice (b_discountedPrice b) villa)
  else mret villa.

(** [// Update minRooms if provided], with its check against the [bedrooms]
    of the request. *)
Definition assign_minRooms (b : villa_body) (villa : Villa) : Villa :=
  if b_minRooms b is Some _
  then set_minRooms (b_minRooms b) villa else villa.

Definition update_minRooms (b : villa_body) (villa : Villa) : M Villa :=
  if b_minRooms b is Some _
  then reject_if (gt (b_minRooms b) (b_bedrooms b))
         (fail 400 "Minimum rooms cannot be greater than total bedrooms");;
       mret (set_minRooms (b_minRooms b) villa)
  else mret villa.

(** [// Update bedrooms if provided], and likewise the bathrooms, the price
    reduction per room, the guests, the bank details and PromptPay. *)
Definition assign_bedrooms (b : villa_body) (villa : Villa) : Villa :=
  if b_bedrooms b is Some _
  then set_bedrooms (b_bedrooms b) villa else villa.

Definition assign_bathrooms (b : villa_body) (villa : Villa) : Villa :=
  if b_bathrooms b is Some _
  then set_bathrooms (b_bathrooms b) villa else villa.

Definition assign_priceReductionPerRoom (b : villa_body) (villa : Villa) : Villa :=
  if b_priceReductionPerRoom b is Some _
  then set_priceReductionPerRoom (b_priceReductionPerRoom b) villa else villa.

Definition assign_maxGuests (b : villa_body) (villa : Villa) : Villa :=
  if b_maxGuests b is Some _
  then set_maxGuests (b_maxGuests b) villa else villa.

Definition assign_bankDetails (b : villa_body) (villa : Villa) : Villa :=
  match b_bankDetails b with
  | JUndefined => villa
  | given => set_bankDetails given villa
  end.

Definition assign_promptPay (b : villa_body) (villa : Villa) : Villa :=
  if b_promptPay b is Some given
  then set_promptPay given villa else villa.

Definition patch_villa_body (b : villa_body) : M response :=
  found ← findOne;
  let villa := default newVilla found in
  let villa := assign_texts b villa in
  let villa := assign_beachfront b villa in
  let villa := assign_pricePerNight b villa in
  villa ← update_discountedPrice b villa;
  villa ← update_minRooms b villa;
  let villa := assign_bedrooms b villa in
  let villa := assign_bathrooms b villa in
  let villa := assign_priceReductionPerRoom b villa in
  let villa := assign_maxGuests b villa in
  let villa := assign_bankDetails b villa in
  let villa := assign_promptPay b villa in
  save villa;;
  mret (mkResponse 200 None (VillaDoc villa)).

Definition patch_villa (b : villa_body) :=
  handle (fail 500 "Error updating villa details") (patch_villa_body b).

(** The two checks of [PATCH /], as the handler evaluates them. *)
Definition discount_rejected (b : villa_body) : bool :=
  gt (b_discountedPrice b) (Some 0)
  && ge (b_discountedPrice b) (b_pricePerNight b).

Definition rooms_rejected (b : villa_body) : bool :=
  gt (b_minRooms b) (b_bedrooms b).

(** The in-memory document [PATCH /] has built when it reaches [save]: every
    assignment of the handler, in its order. *)
Definition assigned (b : villa_body) (villa : Villa) : Villa :=
  assign_promptPay b
    (assign_bankDetails b
      (assign_maxGuests b
        (assign_priceReductionPerRoom b
          (assign_bathrooms b
            (assign_bedrooms b
              (assign_minRooms b
                (assign_discountedPrice b
                  (assign_pricePerNight b
                    (assign_beachfront b (assign_texts b villa)))))))))).

(** *** The image, slide, PromptPay and room routes

    The handlers also unlink the replaced image files; the files on disk are
    not part of the collection and are left out. [multer] hands the stored
    file names over in [req.file] and [req.files]. *)

Definition villa_url (filename : string) : string :=
  CLIENT_URL +:+ "/uploads/villa/" +:+ filename.
Definition qr_url (filename : string) : string :=
  CLIENT_URL +:+ "/uploads/QR/" +:+ filename.
Definition room_url (filename : string) : string :=
  CLIENT_URL +:+ "/uploads/rooms/" +:+ filename.

(** [const villa = await Villa.findOne(); if (!villa) return 404]. *)
Definition findOne_or_404 (msg : string) : M Villa :=
  found ← findOne;
  match found with
  | Some villa => mret villa
  | None => reply (fail 404 msg)
  end.

(** PATCH /background *)
Definition patch_background_body (file : option string) : M response :=
  match file with
  | None => reply (fail 400 "No file uploaded")
  | Some filename =>
      villa ← findOne_or_404 "Villa not found";
      let villa := set_backgroundImage (Some (villa_url filename)) villa in
      save villa;;
      mret (mkResponse 200 (Some "Background image updated successfully")
                       (Url (villa_url filename)))
  end.

Definition patch_background (file : option string) :=
  handle (fail 500 "Error updating background image") (patch_background_body file).

(** POST /slides *)
Definition post_slides_body (files : list string) : M response :=
  reject_if (bool_decide (files = [])) (fail 400 "No files uploaded");;
  villa ← findOne_or_404 "Villa not found";
  let villa := set_slideImages (map (λ f, Some (villa_url f)) files) villa in
  save villa;;
  mret (mkResponse 200 (Some "Slide images updated successfully")
                   (SlideList (slideImages villa))).

Definition post_slides (files : list string) :=
  handle (fail 500 "Error updating slide images") (post_slides_body files).

(** DELETE /background *)
Definition delete_background_body : M response :=
  found ← findOne;
  match found with
  | Some villa =>
      reject_if (negb (opt_truthy (backgroundImage villa)))
                (fail 404 "Background image not found");;
      save (set_backgroundImage None villa);;
      mret (mkResponse 200 (Some "Background image deleted successfully") NoData)
  | None => reply (fail 404 "Background image not found")
  end.

Definition delete_background :=
  handle (fail 500 "Error deleting background image") delete_background_body.

(** DELETE /slides/:index, for a numeric [index]. [splice(index, 1)] is
    [delete] on lists. *)
Definition delete_slide_body (index : nat) : M response :=
  found ← findOne;
  match found with
  | Some villa =>
      reject_if (negb (opt_truthy (mjoin (slideImages villa !! index))))
                (fail 404 "Slide image not found");;
      save (set_slideImages (delete index (slideImages villa)) villa);;
      mret (mkResponse 200 (Some "Slide image deleted successfully") NoData)
  | None => reply (fail 404 "Slide image not found")
  end.

Definition delete_slide (index : nat) :=
  handle (fail 500 "Error deleting slide image") (delete_slide_body index).

(** PATCH /slides/reorder. [newOrder] is [None] when the body's value is not
    an array, and the list of its indices otherwise. *)
Definition patch_slides_reorder_body (newOrder : option (list Z)) : M response :=
  villa ← findOne_or_404 "Villa not found";
  match newOrder with
  | None => reply (fail 400 "Invalid order format")
  | Some order =>
      let reorderedImages := map (λ i, index (slideImages villa) i) order in
      let villa := set_slideImages reorderedImages villa in
      save villa;;
      mret (mkResponse 200 (Some "Slide images reordered successfully")
                       (VillaDoc villa))
  end.

Definition patch_slides_reorder (newOrder : option (list Z)) :=
  handle (fail 500 "Error reordering slide images")
         (patch_slides_reorder_body newOrder).

(** POST /promptpay-qr *)
Definition post_promptpay_qr_body (file : option string) : M response :=
  match file with
  | None => reply (fail 400 "No file uploaded")
  | Some filename =>
      villa ← findOne_or_404 "Villa not found";
      let villa := set_promptPay (Some (mkPromptPay (Some (qr_url filename)))) villa in
      save villa;;
      mret (mkResponse 200 (Some "QR code uploaded successfully")
                       (Url (qr_url filename)))
  end.

Definition post_promptpay_qr (file : option string) :=
  handle (fail 500 "Failed to upload QR code") (post_promptpay_qr_body file).

(** DELETE /promptpay-qr *)
Definition delete_promptpay_qr_body : M response :=
  found ← findOne;
  match found with
  | Some villa =>
      reject_if (negb (opt_truthy (promptPay villa ≫= qrImage)))
                (fail 404 "QR code not found");;
      save (set_promptPay (Some (mkPromptPay None)) villa);;
      mret (mkResponse 200 (Some "QR code deleted successfully") NoData)
  | None => reply (fail 404 "QR code not found")
  end.

Definition delete_promptpay_qr :=
  handle (fail 500 "Failed to delete QR code") delete_promptpay_qr_body.

(** [JSON.parse(x)] of a multipart field that may be absent. *)
Definition parse_field (x : option string) : option jsval := x ≫= JSON_parse.

(** POST /rooms *)
Definition post_room_body (name description : option string)
    (files : list string) : M response :=
  villa ← findOne_or_404 "Villa not found";
  let images := map room_url files in
  n ← or_throw (parse_field name);
  d ← or_throw (parse_field description);
  let villa := set_rooms (rooms villa ++ [mkRoom n d images]) villa in
  save villa;;
  mret (mkResponse 200 (Some "Room added successfully") (VillaDoc villa)).

Definition post_room (name description : option string) (files : list string) :=
  handle (fail 500 "Error adding room") (post_room_body name description files).

(** PATCH /rooms/:index *)
Definition patch_room_body (index : nat) (name description : option string)
    (files : list string) : M response :=
  villa ← findOne_or_404 "Villa not found";
  match rooms villa !! index with
  | None => reply (fail 404 "Room not found")
  | Some room =>
      let images' :=
        if bool_decide (files = []) then images room else map room_url files in
      n ← or_throw (parse_field name);
      d ← or_throw (parse_field description);
      let villa := set_rooms (<[index := mkRoom n d images']> (rooms villa)) villa in
      save villa;;
      mret (mkResponse 200 (Some "Room updated successfully") (VillaDoc villa))
  end.

Definition patch_room (index : nat) (name description : option string)
    (files : list string) :=
  handle (fail 500 "Error updating room")
         (patch_room_body index name description files).

(** DELETE /rooms/:index *)
Definition delete_room_body (index : nat) : M response :=
  villa ← findOne_or_404 "Villa not found";
  match rooms villa !! index with
  | None => reply (fail 404 "Room not found")
  | Some _ =>
      let villa := set_rooms (delete index (rooms villa)) villa in
      save villa;;
      mret (mkResponse 200 (Some "Room deleted successfully") (VillaDoc villa))
  end.

Definition delete_room (index : nat) :=
  handle (fail 500 "Error deleting room") (delete_room_body index).

(** *** The router as a whole *)
Inductive request : Type :=
  | GetVilla
  | PatchBankDetails (body : jsval)
  | PatchVilla (body : villa_body)
  | PatchBackground (file : option string)
  | PostSlides (files : list string)
  | DeleteBackground
  | DeleteSlide (index : nat)
  | PatchSlidesReorder (newOrder : option (list Z))
  | PostPromptPayQr (file : option string)
  | DeletePromptPayQr
  | PostRoom (name description : option string) (files : list string)
  | PatchRoom (index : nat) (name description : option string) (files : list string)
  | DeleteRoom (index : nat).

Definition route (r : request) : option Villa → response * option Villa :=
  match r with
  | GetVilla => get_villa
  | PatchBankDetails body => patch_bank_details body
  | PatchVilla body => patch_villa body
  | PatchBackground file => patch_background file
  | PostSlides files => post_slides files
  | DeleteBackground => delete_background
  | DeleteSlide index => delete_slide index
  | PatchSlidesReorder newOrder => patch_slides_reorder newOrder
  | PostPromptPayQr file => post_promptpay_qr file
  | DeletePromptPayQr => delete_promptpay_qr
  | PostRoom name description files => post_room name description files
  | PatchRoom index name description files => patch_room index name description files
  | DeleteRoom index => delete_room index
  end.

(** The collection after a sequence of requests. *)
Definition serve (rs : list request) (db : option Villa) : option Villa :=
  foldl (λ db r, (route r db).2) db rs.

End Router.

(** A handler either leaves the collection as it found it, or answers 200
    with a document in the collection. *)
Definition kept_or_saved (db : option Villa)
    (out : response * option Villa) : Prop :=
  out.2 = db ∨ (status out.1 = 200%nat ∧ is_Some out.2).

End VillaRouter.

(* ===================================================================== *)
(** ** Sample documents and requests *)
(* ===================================================================== *)

Module Samples.

Import VillaRouter.

(** A document with no field set. *)
Definition blank : Villa :=
  mkVilla JUndefined JUndefined JUndefined (mkBilingual JUndefined JUndefined)
          None None None None None None None None [] [] (JArr []) None.

(** The document [GET /] creates over [blank]. *)
Definition paradise : Villa := villa_defaults blank.

(** A schema that accepts every document. *)
Definition lenient : Villa → bool := λ _, true.

(** A request with a fair discount and more rooms asked than bedrooms. *)
Definition fair_discount_many_rooms : villa_body :=
  mkBody JUndefined JUndefined JUndefined JUndefined
         None (Some 3) (Some 5) None (Some 299) (Some 100) None JUndefined None.

(** A request with a discount above the price and a fair number of rooms. *)
Definition high_discount_fair_rooms : villa_body :=
  mkBody JUndefined JUndefined JUndefined JUndefined
         None (Some 3) (Some 2) None (Some 299) (Some 500) None JUndefined None.

(** Requests that carry one field only. *)
Definition only_discount (d : Z) : villa_body :=
  mkBody JUndefined JUndefined JUndefined JUndefined
         None None None None None (Some d) None JUndefined None.

Definition only_minRooms (m : Z) : villa_body :=
  mkBody JUndefined JUndefined JUndefined JUndefined
         None None (Some m) None None None None JUndefined None.

Definition only_bankDetails (given : jsval) : villa_body :=
  mkBody JUndefined JUndefined JUndefined JUndefined
         None None None None None None None given None.

(** A request that passes both checks. *)
Definition fair_update : villa_body :=
  mkBody JUndefined JUndefined JUndefined JUndefined
         None (Some 3) (Some 2) None (Some 299) (Some 100) None JUndefined None.

(** A bank entry without any of its three texts, one with blank texts, and a
    complete one. *)
Definition empty_bank : jsval :=
  JObj [("bank", JStr ""); ("accountNumber", JStr ""); ("accountName", JStr "")].

Definition blank_bank : jsval :=
  JObj [("bank", JStr " "); ("accountNumber", JStr " "); ("accountName", JStr " ")].

Definition full_bank : jsval :=
  JObj [("bank", JStr " Kasikorn "); ("accountNumber", JStr "123 456  789");
        ("accountName", JStr "Villa Paradise")].

(** Five slides. *)
Definition five_slides : list (option string) :=
  [Some "/uploads/villa/a.jpg"; Some "/uploads/villa/b.jpg";
   Some "/uploads/villa/c.jpg"; Some "/uploads/villa/d.jpg";
   Some "/uploads/villa/e.jpg"].

Definition gallery : Villa := set_slideImages five_slides paradise.

(** The router over the blank document, with a lenient schema, a client URL
    and a [JSON.parse] that always throws. *)
Definition sample_route : request → option Villa → response * option Villa :=
  route blank lenient "https://villa.example" (λ _, None).

End Samples.

(* ===================================================================== *)
(** ** The booking lifecycle *)
(* ===================================================================== *)

Module Booking.

(** Modelled from the spec: the data model of a booking (section 3) and the
    states of its lifecycle (section 4.1); the booking model and routes are
    missing from the sources. *)
Inductive Method : Type := bank_transfer | promptpay.

Inductive Status : Type :=
  | draft | pending_payment | pending | confirmed | expired | cancelled.

#[export] Instance Status_eq_dec : EqDecision Status.
Proof. solve_decision. Defined.

(** Modelled from the spec: the terminal states. *)
Definition terminal (s : Status) : bool :=
  match s with confirmed | expired | cancelled => true | _ => false end.

Record CustomerInfo : Type := mkCustomer {
  firstName : string;
  lastName : string;
  contact : string
}.

(** Dates are day numbers, times are milliseconds. *)
Record BookingDetails : Type := mkDetails {
  checkIn : Z;
  checkOut : Z;
  guests : Z;
  totalPrice : Z
}.

Record PaymentDetails : Type := mkPayment {
  method : option Method;
  slipUrl : string;
  payment_status : Status
}.

Record Booking : Type := mkBooking {
  id : string;
  customerInfo : CustomerInfo;
  bookingDetails : BookingDetails;
  paymentMethod : option Method;
  paymentDetails : option PaymentDetails;
  status : Status;
  paymentSlipUrl : option string;
  createdAt : Z;
  expiresAt : Z
}.

(** Modelled from the spec: the error taxonomy (section 7) and its HTTP
    codes. *)
Inductive error : Type :=
  | NotFound | ValidationError | InvalidTransition | InvalidEvidence | StorageFailure.

Definition http_status (e : error) : nat :=
  match e with
  | NotFound => 404
  | ValidationError => 400
  | InvalidEvidence => 400
  | InvalidTransition => 409
  | StorageFailure => 500
  end.

Inductive result (A : Type) : Type :=
  | Ok (a : A)
  | Err (e : error).
Arguments Ok {A} a.
Arguments Err {A} e.

Abbreviation store := (gmap string Booking).

(** The body of [PATCH /bookings/:id], with the fields the payment page
    sends (PaymentMethod.tsx, lines 68-71 and 107-114). What the route does
    with any other field of a body, a total price among them, is not
    modelled. *)
Record update : Type := mkUpdate {
  u_paymentMethod : option Method;
  u_status : option Status;
  u_paymentDetails : option PaymentDetails
}.

Section Lifecycle.

(** The fixed payment window, in milliseconds. *)
Variable paymentWindow : Z.

(** Modelled from the spec: the price of a night, "pricePerNight minus any
    applicable discount"; the pricing code of the booking routes is missing
    from the sources. [discount] is 0 where none applies. *)
Definition effectivePricePerNight (pricePerNight discount : Z) : Z :=
  pricePerNight - discount.

(** Modelled from the spec: the number of nights of a stay. *)
Definition nights (checkIn checkOut : Z) : Z := checkOut - checkIn.

(** Modelled from the spec: creation of a booking, the route that creates it
    is missing from the sources. The record is built once the customer has
    chosen dates and guests ([checkIn < checkOut], [1 ≤ guests ≤ maxGuests]);
    it expires a payment window after its creation. *)
Definition newBooking (now : Z) (bid : string) (who : CustomerInfo)
    (checkIn checkOut guests maxGuests pricePerNight discount : Z)
    : result Booking :=
  if (checkIn <? checkOut) && (1 <=? guests) && (guests <=? maxGuests)
  then Ok (mkBooking bid who
             (mkDetails checkIn checkOut guests
                (nights checkIn checkOut
                 * effectivePricePerNight pricePerNight discount))
             None None draft None now (now + paymentWindow))
  else Err ValidationError.

(** Modelled from the spec: the transition [draft → pending_payment] of the
    lifecycle controller, missing from the sources. *)
Definition selectPaymentMethod (m : Method) (b : Booking) : result Booking :=
  match status b with
  | draft =>
      Ok (mkBooking (id b) (customerInfo b) (bookingDetails b) (Some m)
            (paymentDetails b) pending_payment (paymentSlipUrl b)
            (createdAt b) (expiresAt b))
  | _ => Err InvalidTransition
  end.

(** Modelled from the spec: the transition [pending_payment → pending] of the
    lifecycle controller, missing from the sources. It needs
    [now < expiresAt] and a booking that is neither pending nor terminal. *)
Definition submitPaymentEvidence (now : Z) (slipRef : string) (b : Booking)
    : result Booking :=
  match status b with
  | pending_payment =>
      if now <? expiresAt b
      then Ok (mkBooking (id b) (customerInfo b) (bookingDetails b)
                 (paymentMethod b)
                 (Some (mkPayment (paymentMethod b) slipRef pending))
                 pending (Some slipRef) (createdAt b) (expiresAt b))
      else Err InvalidTransition
  | _ => Err InvalidTransition
  end.

(** Modelled from the spec: the lazy transition to [expired] of the expiry
    enforcer (sections 4.1, 4.3 and 8), missing from the sources. A booking
    whose window has elapsed ([now ≥ expiresAt]) with no evidence submitted
    becomes expired, whether a payment method was chosen or not; a terminal
    booking stays as it is. *)
Definition expireIfDue (now : Z) (b : Booking) : Booking :=
  if (expiresAt b <=? now) && negb (terminal (status b))
  then match paymentSlipUrl b with
       | None =>
           mkBooking (id b) (customerInfo b) (bookingDetails b)
             (paymentMethod b) (paymentDetails b) expired (paymentSlipUrl b)
             (createdAt b) (expiresAt b)
       | Some _ => b
       end
  else b.

(** Modelled from the spec: a change of status that leaves the rest of the
    record. *)
Definition set_status (s : Status) (b : Booking) : Booking :=
  mkBooking (id b) (customerInfo b) (bookingDetails b) (paymentMethod b)
    (paymentDetails b) s (paymentSlipUrl b) (createdAt b) (expiresAt b).

(** Modelled from the spec: the administrator's [pending → confirmed]. *)
Definition confirm (b : Booking) : result Booking :=
  match status b with
  | pending => Ok (set_status confirmed b)
  | _ => Err InvalidTransition
  end.

(** Modelled from the spec: cancellation of a booking that is not terminal. *)
Definition cancel (b : Booking) : result Booking :=
  if terminal (status b) then Err InvalidTransition
  else Ok (set_status cancelled b).

(** *** The booking record store *)

(** Modelled from the spec: every transition is one conditional update of
    the stored record (the store code is missing from the sources): the
    current record is read, the transition decides on it, and its result is
    written back. *)
Definition transition (f : Booking → result Booking) (bid : string)
    (s : store) : result Booking * store :=
  match s !! bid with
  | None => (Err NotFound, s)
  | Some b =>
      match f b with
      | Ok b' => (Ok b', <[bid := b']> s)
      | Err e => (Err e, s)
      end
  end.

(** Modelled from the spec: [GET /bookings/:id], with its lazy expiry
    check. *)
Definition getBooking (now : Z) (bid : string) (s : store)
    : result Booking * store :=
  transition (λ b, Ok (expireIfDue now b)) bid s.

(** Modelled from the spec: [PATCH /bookings/:id], which applies the
    transition towards the status asked for. *)
Definition updateBooking (now : Z) (bid : string) (u : update) (s : store)
    : result Booking * store :=
  match u_status u with
  | Some pending_payment =>
      match u_paymentMethod u with
      | Some m => transition (selectPaymentMethod m) bid s
      | None => (Err ValidationError, s)
      end
  | Some pending =>
      match u_paymentDetails u with
      | Some d => transition (submitPaymentEvidence now (slipUrl d)) bid s
      | None => (Err ValidationError, s)
      end
  | Some confirmed => transition confirm bid s
  | Some cancelled => transition cancel bid s
  | Some draft | Some expired => transition (λ _, Err InvalidTransition) bid s
  | None => (Err ValidationError, s)
  end.

(** Modelled from the spec: the store gives a new booking an unused id. *)
Definition createBooking (now : Z) (who : CustomerInfo)
    (checkIn checkOut guests maxGuests pricePerNight discount : Z) (s : store)
    : result Booking * store :=
  let bid := fresh (dom s) in
  match newBooking now bid who checkIn checkOut guests maxGuests
                   pricePerNight discount with
  | Ok b => (Ok b, <[bid := b]> s)
  | Err e => (Err e, s)
  end.

(** Modelled from the spec: the calls of the HTTP surface that reach the
    store, and a history of them. *)
Inductive call : Type :=
  | Create (who : CustomerInfo)
           (checkIn checkOut guests maxGuests pricePerNight discount : Z)
  | Get (bid : string)
  | Patch (bid : string) (u : update).

(** Modelled from the spec: the answer to a call and the store after it. *)
Definition serve (now : Z) (c : call) (s : store) : result Booking * store :=
  match c with
  | Create who ci co g mg p d => createBooking now who ci co g mg p d s
  | Get bid => getBooking now bid s
  | Patch bid u => updateBooking now bid u s
  end.

(** The store after a history of timed calls. *)
Definition run (history : list (Z * call)) (s : store) : store :=
  foldl (λ s tc, (serve tc.1 tc.2 s).2) s history.

End Lifecycle.

End Booking.

(* ===================================================================== *)
(** ** The payment page (PaymentMethod.tsx) *)
(* ===================================================================== *)

Module PaymentPage.

Record File : Type := mkFile {
  file_name : string;
  file_type : string;
  file_size : Z
}.

(** The React state of the component. *)
Record page : Type := mkPage {
  isLoading : bool;
  booking : option Booking.Booking;
  selectedMethod : Booking.Method;
  paymentSlipUrl : string;
  selectedFile : option File;
  previewUrl : string;
  isPaymentConfirmed : bool
}.

(** [useState] initial values. *)
Definition initial_page : page :=
  mkPage true None Booking.bank_transfer "" None "" false.

(** What the user sees: toasts (by translation key) and navigations. *)
Inductive ui_event : Type :=
  | ToastError (key : string)
  | ToastSuccess (key : string)
  | Navigate (path : string).

Definition setIsLoading (x : bool) (p : page) : page :=
  mkPage x (booking p) (selectedMethod p) (paymentSlipUrl p) (selectedFile p)
         (previewUrl p) (isPaymentConfirmed p).
Definition setBooking (x : option Booking.Booking) (p : page) : page :=
  mkPage (isLoading p) x (selectedMethod p) (paymentSlipUrl p) (selectedFile p)
         (previewUrl p) (isPaymentConfirmed p).
Definition setSelectedMethod (x : Booking.Method) (p : page) : page :=
  mkPage (isLoading p) (booking p) x (paymentSlipUrl p) (selectedFile p)
         (previewUrl p) (isPaymentConfirmed p).
Definition setPaymentSlipUrl (x : string) (p : page) : page :=
  mkPage (isLoading p) (booking p) (selectedMethod p) x (selectedFile p)
         (previewUrl p) (isPaymentConfirmed p).
Definition setSelectedFile (x : option File) (p : page) : page :=
  mkPage (isLoading p) (booking p) (selectedMethod p) (paymentSlipUrl p) x
         (previewUrl p) (isPaymentConfirmed p).
Definition setPreviewUrl (x : string) (p : page) : page :=
  mkPage (isLoading p) (booking p) (selectedMethod p) (paymentSlipUrl p)
         (selectedFile p) x (isPaymentConfirmed p).
Definition setIsPaymentConfirmed (x : bool) (p : page) : page :=
  mkPage (isLoading p) (booking p) (selectedMethod p) (paymentSlipUrl p)
         (selectedFile p) (previewUrl p) x.

(** [const hasPromptPay = !!villa?.promptPay?.qrImage], over the villa of
    the Redux store ([None] while it is not loaded). *)
Definition hasPromptPay (villa : option Villa) : bool :=
  match villa with
  | Some v =>
      match promptPay v with
      | Some pp => opt_truthy (qrImage pp)
      | None => false
      end
  | None => false
  end.

Section Page.

Variable paymentWindow : Z.

(** The upload service: which MIME types are images, the size ceiling, and
    the URL under which a stored file is served. *)
Variable is_image : string → bool.
Variable sizeCeiling : Z.
Variable storedUrl : File → string.
(** [URL.createObjectURL]. *)
Variable createObjectURL : File → string.

(** Modelled from the spec: [POST /upload/slip], missing from the sources; it
    accepts an image within the size ceiling and answers its URL. *)
Definition uploadSlip (file : File) : Booking.result string :=
  if is_image (file_type file) && (file_size file <=? sizeCeiling)
  then Booking.Ok (storedUrl file)
  else Booking.Err Booking.InvalidEvidence.

(** The page's view of the world: its own state, the booking store on the
    server, and the events shown so far. *)
Definition world : Type := page * Booking.store * list ui_event.

(** [fetchBooking] of the mount effect; [bookingApi.getBooking] throws when
    the server answers an error. *)
Definition fetchBooking (now : Z) (id : option string) (p : page)
    (s : Booking.store) : world :=
  match id with
  | None => (p, s, [Navigate "/"])
  | Some bid =>
      match Booking.getBooking now bid s with
      | (Booking.Ok bookingData, s') =>
          let p := setBooking (Some bookingData) p in
          let p :=
            if opt_truthy (Booking.paymentSlipUrl bookingData)
            then setIsPaymentConfirmed true
                   (setPaymentSlipUrl
                      (default "" (Booking.paymentSlipUrl bookingData)) p)
            else p in
          (setIsLoading false p, s', [])
      | (Booking.Err _, s') =>
          (setIsLoading false p, s',
           [ToastError "booking.errors.fetchFailed"; Navigate "/"])
      end
  end.

Definition handlePaymentMethodSelect (now : Z) (bid : string)
    (m : Booking.Method) (p : page) (s : Booking.store) : world :=
  match Booking.updateBooking now bid
          (Booking.mkUpdate (Some m) (Some Booking.pending_payment) None) s with
  | (Booking.Ok _, s') =>
      (p, s', [Navigate ("/booking/" +:+ bid +:+ "/confirmation")])
  | (Booking.Err _, s') => (p, s', [ToastError "booking.errors.updateFailed"])
  end.

Definition handleFileSelect (file : File) (p : page) : page :=
  if isPaymentConfirmed p then p
  else setPreviewUrl (createObjectURL file) (setSelectedFile (Some file) p).

Definition handleConfirmPayment (now : Z) (bid : string) (p : page)
    (s : Booking.store) : world :=
  match selectedFile p with
  | None => (p, s, [])
  | Some file =>
      if isPaymentConfirmed p then (p, s, [])
      else
        let p := setIsLoading true p in
        match uploadSlip file with
        | Booking.Err _ =>
            (setIsLoading false p, s, [ToastError "payment.errors.confirmFailed"])
        | Booking.Ok fileUrl =>
            let p := setIsPaymentConfirmed true (setPaymentSlipUrl fileUrl p) in
            match Booking.updateBooking now bid
                    (Booking.mkUpdate None (Some Booking.pending)
                       (Some (Booking.mkPayment (Some (selectedMethod p))
                                fileUrl Booking.pending))) s with
            | (Booking.Ok _, s') =>
                (setIsLoading false p, s',
                 [ToastSuccess "payment.success.confirmed";
                  Navigate ("/booking/" +:+ bid +:+ "/confirmation")])
            | (Booking.Err _, s') =>
                (setIsLoading false p, s',
                 [ToastError "payment.errors.confirmFailed"])
            end
        end
  end.


End Page.

End PaymentPage.

(* ===================================================================== *)
(** ** Sample bookings *)
(* ===================================================================== *)

Module BookingSamples.

Import Booking.

Definition guest : CustomerInfo := mkCustomer "Ann" "Lee" "ann@example.com".

(** A stay from 2025-06-01 to 2025-06-04 (days 20240 and 20243 of the epoch)
    for 4 guests at 299 a night, created at time 1000 with a payment window
    of 1000, its payment method chosen. *)
Definition awaiting : Booking :=
  mkBooking "b1" guest (mkDetails 20240 20243 4 897) (Some bank_transfer)
            None pending_payment None 1000 2000.

Definition one_awaiting : store := {[ "b1" := awaiting ]}.

Definition slip_one : PaymentDetails :=
  mkPayment (Some bank_transfer) "/uploads/slips/one.jpg" pending.

Definition slip_two : PaymentDetails :=
  mkPayment (Some promptpay) "/uploads/slips/two.jpg" pending.

(** [awaiting] after its evidence [slip_one] was accepted. *)
Definition submitted : Booking :=
  mkBooking "b1" guest (mkDetails 20240 20243 4 897) (Some bank_transfer)
            (Some slip_one) pending (Some "/uploads/slips/one.jpg") 1000 2000.

(** A later history: a read, the administrator's confirmation, a new booking
    and a cancellation that comes too late. *)
Definition later_calls : list (Z * call) :=
  [(2500, Get "b1");
   (2600, Patch "b1" (mkUpdate None (Some confirmed) None));
   (2700, Create guest 20250 20252 2 6 299 0);
   (2800, Patch "b1" (mkUpdate None (Some cancelled) None))].

(** The stay as the store creates it, when empty, at time 1000 with a
    payment window of 1000. *)
Definition new_stay : Booking :=
  mkBooking "0" guest (mkDetails 20240 20243 4 897) None None draft None
            1000 2000.



(** The payment method is chosen, a slip is submitted, then a second one,
    and the booking is read after its expiry time. *)
Definition payment_calls : list (Z * call) :=
  [(1100, Patch "0" (mkUpdate (Some bank_transfer) (Some pending_payment) None));
   (1500, Patch "0" (mkUpdate None (Some pending) (Some slip_one)));
   (1600, Patch "0" (mkUpdate None (Some pending) (Some slip_two)));
   (2500, Get "0")].

(** An upload service that takes JPEG files of at most 10 units and serves
    them under their name. *)
Definition jpeg_only (mime : string) : bool := String.eqb mime "image/jpeg".
Definition served (f : PaymentPage.File) : string :=
  "/uploads/slips/" +:+ PaymentPage.file_name f.

End BookingSamples.

(* ===================================================================== *)
(** ** The admin page of the villa (AdminVilla.tsx) *)
(* ===================================================================== *)

Module AdminVilla.

Import VillaRouter.

(** The form state. Its numbers are the parsed inputs, whole numbers here. *)
Record FormData : Type := mkForm {
  form_name : jsval;
  form_title : jsval;
  form_description : jsval;
  form_beachfront : jsval;
  form_pricePerNight : Z;
  form_discountedPrice : Z;
  form_maxGuests : Z;
  form_bedrooms : Z;
  form_bathrooms : Z;
  form_backgroundImage : option string;
  form_slideImages : list (option string);
  form_rooms : list Room
}.

(** [{ en: '', th: '' }]. *)
Definition empty_texts : jsval := JObj [("en", JStr ""); ("th", JStr "")].

Definition defaultFormData : FormData :=
  mkForm empty_texts empty_texts empty_texts empty_texts 0 0 6 3 3 None [] [].

(** [n || d] on a number that may be absent. *)
Definition num_or (n : option Z) (d : Z) : Z :=
  match n with
  | Some z => if z =? 0 then d else z
  | None => d
  end.

(** The bilingual block of the document as the page receives it. *)
Definition bilingual_json (t : Bilingual) : jsval :=
  JObj [("en", en t); ("th", th t)].

(** The effect that fills the form from the villa of the Redux store. *)
Definition form_of_villa (villa : Villa) : FormData :=
  mkForm (or_else (name villa) empty_texts)
         (or_else (title villa) empty_texts)
         (or_else (description villa) empty_texts)
         (or_else (bilingual_json (beachfront villa)) empty_texts)
         (num_or (pricePerNight villa) 0)
         (num_or (discountedPrice villa) 0)
         (num_or (maxGuests villa) 6)
         (num_or (bedrooms villa) 3)
         (num_or (bathrooms villa) 3)
         (backgroundImage villa)
         (slideImages villa)
         (rooms villa).

Definition syncFormData (villa : option Villa) (f : FormData) : FormData :=
  match villa with
  | Some v => form_of_villa v
  | None => f
  end.

(** The state of the page that the handlers below touch. *)
Record page : Type := mkPage {
  formData : FormData;
  isSubmitting : bool;
  error : string
}.

Inductive toast : Type :=
  | ToastSuccess (text : string)
  | ToastError (text : string).

Definition set_form_slideImages (l : list (option string)) (f : FormData)
    : FormData :=
  mkForm (form_name f) (form_title f) (form_description f) (form_beachfront f)
         (form_pricePerNight f) (form_discountedPrice f) (form_maxGuests f)
         (form_bedrooms f) (form_bathrooms f) (form_backgroundImage f)
         l (form_rooms f).

(** The body [axios.patch('/admin/villa', { ...formData })] sends, as
    [PATCH /] destructures it: the form has no [minRooms],
    [priceReductionPerRoom], [bankDetails] or [promptPay]. *)
Definition body_of_form (f : FormData) : villa_body :=
  mkBody (form_name f) (form_title f) (form_description f) (form_beachfront f)
         (Some (form_maxGuests f)) (Some (form_bedrooms f)) None
         (Some (form_bathrooms f)) (Some (form_pricePerNight f))
         (Some (form_discountedPrice f)) None JUndefined None.

(** [arr.filter((x, i) => keep(x, i))]. *)
Definition filter_indexed {A : Type} (keep : A → nat → bool) (l : list A)
    : list A :=
  omap id (imap (λ i x, if keep x i then Some x else None) l).

Section Page.

Variable newVilla : Villa.
Variable schema_ok : Villa → bool.

(** [handleSubmit]: [axios] throws on an answer outside 2xx, and the page
    then shows the message of the answer. *)
Definition handleSubmit (p : page) (db : option Villa)
    : page * option Villa * list toast :=
  let p := mkPage (formData p) true "" in
  let '(response, db') :=
    patch_villa newVilla schema_ok (body_of_form (formData p)) db in
  if bool_decide (status response = 200%nat)
  then (mkPage (formData p) false (error p), db',
        [ToastSuccess "Villa details updated successfully"])
  else (mkPage (formData p) false
               (let shown := default "" (message response) in
                if str_truthy shown then shown
                else "Error updating villa details"),
        db', []).

(** [handleDeleteSlideImage]; [confirmed] is the answer to the [confirm]
    dialog, and [villaApi.deleteSlideImage] is [DELETE /slides/:index]. *)
Definition handleDeleteSlideImage (confirmed : bool) (index : nat) (p : page)
    (db : option Villa) : page * option Villa * list toast :=
  if negb confirmed then (p, db, [])
  else
    let '(response, db') := delete_slide schema_ok index db in
    if bool_decide (status response = 200%nat)
    then (mkPage
            (set_form_slideImages
               (filter_indexed (λ _ i, negb (i =? index)%nat)
                               (form_slideImages (formData p)))
               (formData p))
            false (error p),
          db', [ToastSuccess "Slide image deleted successfully"])
    else (mkPage (formData p) false (error p), db',
          [ToastError "Failed to delete slide image"]).

End Page.

End AdminVilla.

(* ===================================================================== *)
(** ** Which part of the villa a request is about *)
(* ===================================================================== *)

Module RequestKinds.

Import VillaRouter.

Definition about_slides (r : request) : bool :=
  match r with
  | PostSlides _ | DeleteSlide _ | PatchSlidesReorder _ => true
  | _ => false
  end.

Definition about_rooms (r : request) : bool :=
  match r with
  | PostRoom _ _ _ | PatchRoom _ _ _ _ | DeleteRoom _ => true
  | _ => false
  end.

Definition about_background (r : request) : bool :=
  match r with
  | PatchBackground _ | DeleteBackground => true
  | _ => false
  end.

Definition about_promptPay (r : request) : bool :=
  match r with
  | PostPromptPayQr _ | DeletePromptPayQr | PatchVilla _ => true
  | _ => false
  end.

Definition about_bankDetails (r : request) : bool :=
  match r with
  | PatchBankDetails _ | PatchVilla _ => true
  | _ => false
  end.

Definition about_details (r : request) : bool :=
  match r with
  | PatchVilla _ => true
  | _ => false
  end.

(** The texts, prices and counts that [PATCH /] edits. *)
Definition details (v : Villa) :=
  (name v, title v, description v, beachfront v,
   (pricePerNight v, discountedPrice v, priceReductionPerRoom v),
   (maxGuests v, bedrooms v, minRooms v, bathrooms v)).

(** The requests that can put a villa into an empty collection. *)
Definition creates_villa (r : request) : bool :=
  match r with
  | GetVilla | PatchVilla _ | PatchBankDetails _ => true
  | _ => false
  end.

(** The three texts of a bank entry, when all three are strings. *)
Definition bank_texts (bank : jsval) : option (string * string * string) :=
  match get bank "bank", get bank "accountNumber", get bank "accountName" with
  | Some (JStr b), Some (JStr n), Some (JStr a) => Some (b, n, a)
  | _, _, _ => None
  end.

(** A text of the ASCII range: every character code is below 128. On such
    a text the white space of [trim] and of [\s] is [is_space]; the white
    space outside the range (U+00A0, U+FEFF, U+2028 and the like) does not
    occur in it. *)
Fixpoint ascii_text (s : string) : bool :=
  match s with
  | EmptyString => true
  | String a rest => (nat_of_ascii a <? 128)%nat && ascii_text rest
  end.

(** White space in a text, at its start and at its end. *)
Fixpoint has_space (s : string) : bool :=
  match s with
  | EmptyString => false
  | String a rest => is_space a || has_space rest
  end.

Definition starts_with_space (s : string) : bool :=
  match s with
  | EmptyString => false
  | String a _ => is_space a
  end.

Fixpoint ends_with_space (s : string) : bool :=
  match s with
  | EmptyString => false
  | String a EmptyString => is_space a
  | String _ rest => ends_with_space rest
  end.

(** An entry of the shape [PATCH /bank-details] stores: three texts, the
    bank name and the account name without white space at their ends, the
    account number without any white space. *)
Definition normal_entry (e : jsval) : Prop :=
  ∃ b n a,
    e = JObj [("bank", JStr b); ("accountNumber", JStr n);
              ("accountName", JStr a)]
    ∧ starts_with_space b = false ∧ ends_with_space b = false
    ∧ has_space n = false
    ∧ starts_with_space a = false ∧ ends_with_space a = false.

(** The order that does in one reordering what [first] and then [second]
    do: position [i] reads the position that [first] holds at [second[i]],
    and a position outside [first] reads none (index -1). *)
Definition composed_order (first second : list Z) : list Z :=
  map (λ j, if j <? 0 then -1 else default (-1) (first !! Z.to_nat j)) second.

End RequestKinds.

(* ===================================================================== *)
(** ** More sample documents, pages and requests *)
(* ===================================================================== *)

Module MoreSamples.

Import VillaRouter Samples.

Definition client_url : string := "https://villa.example".

(** A [JSON.parse] that reads three literals and throws on the rest. *)
Definition tiny_parse (text : string) : option jsval :=
  if String.eqb text "null" then Some JNull
  else if String.eqb text "true" then Some (JBool true)
  else if String.eqb text "[]" then Some (JArr [])
  else None.

(** The default villa with a background image, with one room, and with a
    discounted price of 0. *)
Definition with_background : Villa :=
  set_backgroundImage (Some "https://villa.example/uploads/villa/bg.jpg")
                      paradise.

Definition sea_room : Room :=
  mkRoom (JArr []) (JArr []) ["https://villa.example/uploads/rooms/sea.jpg"].

Definition roomy : Villa := set_rooms [sea_room] paradise.

Definition priced : Villa := set_discountedPrice (Some 0) paradise.

(** A request with a new English name and no Thai name, and with a new
    English beachfront text alone. *)
Definition partial_texts : villa_body :=
  mkBody (JObj [("en", JStr "Sea View"); ("th", JStr "")])
         (JObj [("en", JStr "A new title"); ("th", JStr "A new title")])
         (JObj [("en", JStr "A new text"); ("th", JStr "A new text")])
         (JObj [("en", JStr "On the beach")])
         None None None None None None None JUndefined None.

(** A request with a new Thai beachfront text and an empty English one. *)
Definition thai_beachfront : villa_body :=
  mkBody JUndefined JUndefined JUndefined
         (JObj [("en", JStr ""); ("th", JStr "Rim Talay")])
         None None None None None None None JUndefined None.

(** The admin page just filled from [priced], and the same page with a
    discounted price of 500 typed in. *)
Definition loaded : AdminVilla.page :=
  AdminVilla.mkPage (AdminVilla.form_of_villa priced) false "".

Definition overpriced : AdminVilla.page :=
  AdminVilla.mkPage
    (AdminVilla.mkForm AdminVilla.empty_texts AdminVilla.empty_texts
       AdminVilla.empty_texts AdminVilla.empty_texts 299 500 6 3 3 None [] [])
    false "".

(** The admin page filled from the villa with five slides. *)
Definition showing_gallery : AdminVilla.page :=
  AdminVilla.mkPage (AdminVilla.form_of_villa gallery) false "".

(** The payment page with a slip selected. *)
Definition slip_file : PaymentPage.File :=
  PaymentPage.mkFile "one.jpg" "image/jpeg" 5.

Definition ready : PaymentPage.page :=
  PaymentPage.setSelectedFile (Some slip_file) PaymentPage.initial_page.

(** A store that holds the sample booking with its slip on record. *)
Definition one_submitted : Booking.store :=
  {[ "b1" := BookingSamples.submitted ]}.

End MoreSamples.

(* ===================================================================== *)
(** ** Properties of the villa router *)
(* ===================================================================== *)

Module VillaRouterProofs.

Import VillaRouter.

Section Proofs.

Variable newVilla : Villa.
Variable schema_ok : Villa → bool.
Variable CLIENT_URL : string.
Variable JSON_parse : string → option jsval.

Ltac run_handler :=
  repeat (progress unfold handle, create, findOne_or_404, reject_if, or_throw,
            findOne, save, reply, throw, mbind, M_bind, mret, M_ret in * );
  simpl in *.

Lemma update_discountedPrice_cases (b : villa_body) (villa : Villa)
    (db : option Villa) :
  update_discountedPrice b villa db =
    if discount_rejected b
    then (Reply (fail 400 "Discounted price must be less than regular price"), db)
    else (Next (assign_discountedPrice b villa), db).
Proof.
  unfold update_discountedPrice, assign_discountedPrice, discount_rejected.
  destruct (b_discountedPrice b) as [d|]; [|done].
  unfold mbind, M_bind, reject_if.
  by destruct (gt (Some d) (Some 0) && ge (Some d) (b_pricePerNight b)).
Qed.

Lemma update_minRooms_cases (b : villa_body) (villa : Villa)
    (db : option Villa) :
  update_minRooms b villa db =
    if rooms_rejected b
    then (Reply (fail 400 "Minimum rooms cannot be greater than total bedrooms"), db)
    else (Next (assign_minRooms b villa), db).
Proof.
  unfold update_minRooms, assign_minRooms, rooms_rejected.
  destruct (b_minRooms b) as [m|]; [|done].
  unfold mbind, M_bind, reject_if.
  by destruct (gt (Some m) (b_bedrooms b)).
Qed.

(** [PATCH /] by cases: the discount check, the rooms check, then the save
    of the assigned document. *)
Lemma patch_villa_cases (b : villa_body) (db : option Villa) :
  patch_villa newVilla schema_ok b db =
    if discount_rejected b
    then (fail 400 "Discounted price must be less than regular price", db)
    else if rooms_rejected b
    then (fail 400 "Minimum rooms cannot be greater than total bedrooms", db)
    else let doc := assigned b (default newVilla db) in
         if schema_ok doc
         then (mkResponse 200 None (VillaDoc doc), Some doc)
         else (fail 500 "Error updating villa details", db).
Proof.
  unfold patch_villa, patch_villa_body, handle, mbind, M_bind, findOne.
  rewrite update_discountedPrice_cases.
  destruct (discount_rejected b); [done|].
  rewrite update_minRooms_cases.
  destruct (rooms_rejected b); [done|].
  unfold save, assigned; simpl.
  by destruct (schema_ok _).
Qed.

(** *** The discounted price and the minimum of rooms *)

Lemma discount_rejected_iff (b : villa_body) (d p : Z) :
  b_discountedPrice b = Some d → b_pricePerNight b = Some p →
  discount_rejected b = true ↔ 0 < d ∧ p ≤ d.
Proof.
  intros Hd Hp. unfold discount_rejected. rewrite Hd, Hp. simpl.
  rewrite andb_true_iff, Z.ltb_lt, Z.leb_le. done.
Qed.

Lemma rooms_rejected_iff (b : villa_body) (m n : Z) :
  b_minRooms b = Some m → b_bedrooms b = Some n →
  rooms_rejected b = true ↔ n < m.
Proof.
  intros Hm Hn. unfold rooms_rejected. rewrite Hm, Hn. simpl.
  by rewrite Z.ltb_lt.
Qed.

(** One step of the handler leaves the fields it does not assign. *)
Ltac peel f :=
  match goal with
  | |- context [?proj (f ?b ?v)] =>
      replace (proj (f b v)) with (proj v)
        by (unfold f; repeat case_match; done)
  end.

(** What the assigned document holds in the four fields of the checks. *)
Lemma assigned_discountedPrice (b : villa_body) (villa : Villa) (d : Z) :
  b_discountedPrice b = Some d → discountedPrice (assigned b villa) = Some d.
Proof.
  intros Hd. unfold assigned.
  peel assign_promptPay.
  peel assign_bankDetails.
  peel assign_maxGuests.
  peel assign_priceReductionPerRoom.
  peel assign_bathrooms.
  peel assign_bedrooms.
  peel assign_minRooms.
  unfold assign_discountedPrice. by rewrite Hd.
Qed.

Lemma assigned_pricePerNight (b : villa_body) (villa : Villa) (p : Z) :
  b_pricePerNight b = Some p → pricePerNight (assigned b villa) = Some p.
Proof.
  intros Hp. unfold assigned.
  peel assign_promptPay.
  peel assign_bankDetails.
  peel assign_maxGuests.
  peel assign_priceReductionPerRoom.
  peel assign_bathrooms.
  peel assign_bedrooms.
  peel assign_minRooms.
  peel assign_discountedPrice.
  unfold assign_pricePerNight. by rewrite Hp.
Qed.

Lemma assigned_minRooms (b : villa_body) (villa : Villa) (m : Z) :
  b_minRooms b = Some m → minRooms (assigned b villa) = Some m.
Proof.
  intros Hm. unfold assigned.
  peel assign_promptPay.
  peel assign_bankDetails.
  peel assign_maxGuests.
  peel assign_priceReductionPerRoom.
  peel assign_bathrooms.
  peel assign_bedrooms.
  unfold assign_minRooms. by rewrite Hm.
Qed.

Lemma assigned_bedrooms (b : villa_body) (villa : Villa) (n : Z) :
  b_bedrooms b = Some n → bedrooms (assigned b villa) = Some n.
Proof.
  intros Hn. unfold assigned.
  peel assign_promptPay.
  peel assign_bankDetails.
  peel assign_maxGuests.
  peel assign_priceReductionPerRoom.
  peel assign_bathrooms.
  unfold assign_bedrooms. by rewrite Hn.
Qed.

(** C4, as amended. A [PATCH /] request that carries a [discountedPrice] [d]
    and a [pricePerNight] [p] is answered 400, the collection untouched, when
    [0 < d] and [p ≤ d]. Otherwise, when the rooms check does not reject it
    and the save succeeds, the answer is 200 and the saved document holds
    the discounted price [d] and the price [p] of the request. *)
Theorem discounted_price_update (b : villa_body) (db : option Villa) (d p : Z) :
  b_discountedPrice b = Some d →
  b_pricePerNight b = Some p →
  let out := patch_villa newVilla schema_ok b db in
  let doc := assigned b (default newVilla db) in
  (0 < d ∧ p ≤ d →
     out = (fail 400 "Discounted price must be less than regular price", db))
  ∧ (¬ (0 < d ∧ p ≤ d) → rooms_rejected b = false → schema_ok doc = true →
     out = (mkResponse 200 None (VillaDoc doc), Some doc)
     ∧ discountedPrice doc = Some d ∧ pricePerNight doc = Some p).
Proof.
  intros Hd Hp out doc. subst out.
  rewrite patch_villa_cases.
  pose proof (discount_rejected_iff b d p Hd Hp) as Hiff.
  split.
  - intros Hbad. apply Hiff in Hbad. by rewrite Hbad.
  - intros Hgood Hrooms Hsave.
    destruct (discount_rejected b); [by destruct Hgood; apply Hiff|].
    rewrite Hrooms. simpl. fold doc. rewrite Hsave.
    split; [done|]. subst doc.
    by rewrite (assigned_discountedPrice _ _ d), (assigned_pricePerNight _ _ p).
Qed.

(** C5, as amended. A [PATCH /] request that carries [minRooms] [m] and
    [bedrooms] [n] is answered 400, the collection untouched, when [n < m].
    Otherwise, when the discount check does not reject it and the save
    succeeds, the answer is 200 and the saved document holds [m] and [n],
    with [m ≤ n]. *)
Theorem min_rooms_update (b : villa_body) (db : option Villa) (m n : Z) :
  b_minRooms b = Some m →
  b_bedrooms b = Some n →
  let out := patch_villa newVilla schema_ok b db in
  let doc := assigned b (default newVilla db) in
  (n < m → status out.1 = 400%nat ∧ out.2 = db)
  ∧ (m ≤ n → discount_rejected b = false → schema_ok doc = true →
     out = (mkResponse 200 None (VillaDoc doc), Some doc)
     ∧ minRooms doc = Some m ∧ bedrooms doc = Some n ∧ m ≤ n).
Proof.
  intros Hm Hn out doc. subst out.
  rewrite patch_villa_cases.
  pose proof (rooms_rejected_iff b m n Hm Hn) as Hiff.
  split.
  - intros Hbad. apply Hiff in Hbad. rewrite Hbad.
    by destruct (discount_rejected b).
  - intros Hgood Hdisc Hsave. rewrite Hdisc.
    destruct (rooms_rejected b); [destruct Hiff as [Hiff _]; specialize (Hiff eq_refl); lia|].
    simpl. fold doc. rewrite Hsave.
    split; [done|]. subst doc.
    by rewrite (assigned_minRooms _ _ m), (assigned_bedrooms _ _ n).
Qed.

(** *** Bank details *)

Lemma validate_banks_store (banks : list jsval) (db : option Villa) :
  (validate_banks banks db).2 = db.
Proof.
  induction banks as [|bank rest IH]; [done|].
  simpl. run_handler.
  destruct (lacks_field bank) as [[]|]; simpl; try done.
Qed.

(** C6, on the failing input. A bank entry with empty texts is refused by
    [PATCH /bank-details] with 400, while [PATCH /] never answers 400 to a
    request that carries it, and stores it when the save succeeds. *)
Theorem bank_details_unchecked_by_patch_villa (db : option Villa) :
  let given := JArr [Samples.empty_bank] in
  let out := patch_villa newVilla schema_ok (Samples.only_bankDetails given) db in
  patch_bank_details newVilla schema_ok (JObj [("bankDetails", given)]) db
    = (fail 400 "Each bank detail must include bank name, account number, and account name", db)
  ∧ status out.1 ≠ 400%nat
  ∧ out = (if schema_ok (set_bankDetails given (default newVilla db))
           then (mkResponse 200 None
                   (VillaDoc (set_bankDetails given (default newVilla db))),
                 Some (set_bankDetails given (default newVilla db)))
           else (fail 500 "Error updating villa details", db)).
Proof.
  intros given out.
  assert (out = (if schema_ok (set_bankDetails given (default newVilla db))
           then (mkResponse 200 None
                   (VillaDoc (set_bankDetails given (default newVilla db))),
                 Some (set_bankDetails given (default newVilla db)))
           else (fail 500 "Error updating villa details", db))) as Hout.
  { subst out. rewrite patch_villa_cases. simpl.
    by destruct (default newVilla db). }
  split; [done|]. split; [|done].
  rewrite Hout. by destruct (schema_ok _).
Qed.

(** *** What a request can do to the collection *)

Lemma patch_villa_outcome (b : villa_body) (db : option Villa) :
  kept_or_saved db (patch_villa newVilla schema_ok b db).
Proof.
  rewrite patch_villa_cases. unfold kept_or_saved.
  repeat case_match; simpl; eauto.
Qed.

Lemma patch_bank_details_outcome (body : jsval) (db : option Villa) :
  kept_or_saved db (patch_bank_details newVilla schema_ok body db).
Proof.
  unfold patch_bank_details, patch_bank_details_body, kept_or_saved.
  run_handler.
  destruct (get body "bankDetails") as [given|]; simpl; [|by left].
  destruct given; simpl; try by left.
  pose proof (validate_banks_store xs db) as Hdb.
  destruct (validate_banks xs db) as [[[]| |] db']; simpl in *; subst;
    try by left.
  destruct (mapM format_bank xs); simpl; [|by left].
  destruct (schema_ok _); simpl; eauto.
Qed.

Lemma route_outcome (r : request) (db : option Villa) :
  kept_or_saved db (route newVilla schema_ok CLIENT_URL JSON_parse r db).
Proof.
  destruct r; simpl;
    [ | apply patch_bank_details_outcome | apply patch_villa_outcome | ..];
    unfold kept_or_saved, get_villa, get_villa_body, patch_background,
      patch_background_body, post_slides, post_slides_body, delete_background,
      delete_background_body, delete_slide, delete_slide_body,
      patch_slides_reorder, patch_slides_reorder_body, post_promptpay_qr,
      post_promptpay_qr_body, delete_promptpay_qr, delete_promptpay_qr_body,
      post_room, post_room_body, patch_room, patch_room_body, delete_room,
      delete_room_body;
    run_handler;
    repeat (case_match; simpl in *; simplify_eq); eauto.
Qed.

(** C7. A request of the router that is answered 400 leaves the collection
    as it was: no assignment made before the failing check is saved. *)
Theorem validation_failure_keeps_villa (r : request) (db : option Villa) :
  status (route newVilla schema_ok CLIENT_URL JSON_parse r db).1 = 400%nat →
  (route newVilla schema_ok CLIENT_URL JSON_parse r db).2 = db.
Proof.
  intros H400.
  destruct (route_outcome r db) as [Hkept|[H200 _]]; [done|].
  rewrite H400 in H200. discriminate.
Qed.

(** *** Slides *)

(** C8. When the slide sequence of the villa has a slide at position [i]
    ([i] is then below the length [n] of the sequence) and the save succeeds,
    [DELETE /slides/i] answers 200 and saves the sequence without its [i]-th
    element: it has length [n - 1], its elements before [i] are the old ones
    at the same positions and its elements from [i] on are the old ones one
    position up. Without a slide at [i], or without a villa, the answer is
    404 and nothing changes. In a sequence whose entries are all slides
    (non-empty URLs), every position below [n] has a slide. *)
Theorem delete_slide_keeps_order (villa : Villa) (i : nat) :
  let slides := slideImages villa in
  let out := delete_slide schema_ok i (Some villa) in
  (opt_truthy (mjoin (slides !! i)) = true →
   schema_ok (set_slideImages (delete i slides) villa) = true →
     (i < length slides)%nat
     ∧ out.1 = mkResponse 200 (Some "Slide image deleted successfully") NoData
     ∧ out.2 = Some (set_slideImages (delete i slides) villa)
     ∧ delete i slides = (take i slides ++ drop (S i) slides)%list
     ∧ length (delete i slides) = (length slides - 1)%nat
     ∧ (∀ j, (j < i)%nat → delete i slides !! j = slides !! j)
     ∧ (∀ j, (i ≤ j)%nat → delete i slides !! j = slides !! S j))
  ∧ (opt_truthy (mjoin (slides !! i)) = false →
     out = (fail 404 "Slide image not found", Some villa))
  ∧ delete_slide schema_ok i None = (fail 404 "Slide image not found", None)
  ∧ (Forall (λ e, opt_truthy e = true) slides → (i < length slides)%nat →
     opt_truthy (mjoin (slides !! i)) = true).
Proof.
  intros slides out. subst out.
  unfold delete_slide, delete_slide_body. run_handler. fold slides.
  split; [|split; [|split; [done|]]]; cycle 2.
  { intros Hall Hlt. apply lookup_lt_is_Some in Hlt as [e He].
    rewrite He. simpl. by apply (Forall_lookup_1 _ _ _ _ Hall He). }
  - intros Hslide Hsave. rewrite Hslide. simpl. rewrite Hsave. simpl.
    assert (i < length slides)%nat as Hlt.
    { apply lookup_lt_is_Some. destruct (slides !! i); [eauto|done]. }
    repeat split; try done.
    + apply delete_take_drop.
    + rewrite length_delete; [lia|]. by apply lookup_lt_is_Some.
    + intros j Hj. by apply list_lookup_delete_lt.
    + intros j Hj. by apply list_lookup_delete_ge.
  - intros Hnone. by rewrite Hnone.
Qed.

(** What [arr[z]] reads. *)
Lemma index_in_range {A : Type} (l : list (option A)) (z : Z) :
  0 ≤ z < Z.of_nat (length l) → index l z = mjoin (l !! Z.to_nat z).
Proof. intros Hz. unfold index. case_match; [lia|done]. Qed.

Lemma index_out_of_range {A : Type} (l : list (option A)) (z : Z) :
  z < 0 ∨ Z.of_nat (length l) ≤ z → index l z = None.
Proof.
  intros Hz. unfold index. case_match; [done|].
  rewrite lookup_ge_None_2; [done|lia].
Qed.

(** C10. For a villa on record and an array [order] of indices, when the
    save succeeds, [PATCH /slides/reorder] answers 200 and replaces the slide
    sequence by one of the length of [order]; its [i]-th element is the old
    element at position [order[i]], and is missing ([None]) when that index
    is negative or beyond the old sequence. No index is refused. *)
Theorem reorder_maps_indices (villa : Villa) (order : list Z) :
  let slides := slideImages villa in
  let reordered := map (λ z, index slides z) order in
  let out := patch_slides_reorder schema_ok (Some order) (Some villa) in
  schema_ok (set_slideImages reordered villa) = true →
  status out.1 = 200%nat
  ∧ out.2 = Some (set_slideImages reordered villa)
  ∧ length reordered = length order
  ∧ (∀ (i : nat) (z : Z), order !! i = Some z →
       reordered !! i = Some (index slides z)
       ∧ (0 ≤ z < Z.of_nat (length slides) →
            index slides z = mjoin (slides !! Z.to_nat z))
       ∧ (z < 0 ∨ Z.of_nat (length slides) ≤ z → index slides z = None)).
Proof.
  intros slides reordered out Hsave. subst out.
  unfold patch_slides_reorder, patch_slides_reorder_body. run_handler.
  fold slides. fold reordered. rewrite Hsave. simpl.
  repeat split; try done.
  - subst reordered. by rewrite length_map.
  - subst reordered. rewrite list_lookup_fmap.
    by match goal with Hz : order !! _ = Some _ |- _ => rewrite Hz end.
  - by apply index_in_range.
  - by apply index_out_of_range.
Qed.

(** *** The villa on first read and afterwards *)

Lemma serve_is_Some (rs : list request) (db : option Villa) :
  is_Some db →
  is_Some (serve newVilla schema_ok CLIENT_URL JSON_parse rs db).
Proof.
  revert db. induction rs as [|r rs IH]; intros db Hdb; [done|].
  simpl. apply IH.
  destruct (route_outcome r db) as [Hkept|[_ Hsaved]]; [|done].
  by rewrite Hkept.
Qed.

(** C9. With no villa on record and defaults that the schema accepts,
    [GET /] stores the default document (price per night 299, 6 guests,
    3 bedrooms, 3 bathrooms) and answers it. With a villa on record, [GET /]
    answers that villa and leaves it as it is. No sequence of requests to the
    router empties a collection that holds a villa. *)
Theorem villa_created_once_never_deleted :
  schema_ok (villa_defaults newVilla) = true →
  get_villa newVilla schema_ok None
    = (mkResponse 200 None (VillaDoc (villa_defaults newVilla)),
       Some (villa_defaults newVilla))
  ∧ pricePerNight (villa_defaults newVilla) = Some 299
  ∧ maxGuests (villa_defaults newVilla) = Some 6
  ∧ bedrooms (villa_defaults newVilla) = Some 3
  ∧ bathrooms (villa_defaults newVilla) = Some 3
  ∧ (∀ villa, get_villa newVilla schema_ok (Some villa)
              = (mkResponse 200 None (VillaDoc villa), Some villa))
  ∧ (∀ rs villa,
       is_Some (serve newVilla schema_ok CLIENT_URL JSON_parse rs (Some villa))).
Proof.
  intros Hok.
  repeat split; try done.
  - unfold get_villa, get_villa_body. run_handler. by rewrite Hok.
  - intros rs villa. by apply serve_is_Some.
Qed.

End Proofs.

Import Samples.

(** C4 on two requests against the default villa: a discount of 500 on a
    price of 299 is refused, a discount of 100 is saved. *)
Lemma discounted_price_update_witness :
  patch_villa blank lenient high_discount_fair_rooms (Some paradise)
    = (fail 400 "Discounted price must be less than regular price",
       Some paradise)
  ∧ (patch_villa blank lenient fair_update (Some paradise)
       = (mkResponse 200 None (VillaDoc (assigned fair_update paradise)),
          Some (assigned fair_update paradise))
     ∧ discountedPrice (assigned fair_update paradise) = Some 100
     ∧ pricePerNight (assigned fair_update paradise) = Some 299).
Proof.
  split.
  - apply (discounted_price_update blank lenient high_discount_fair_rooms
             (Some paradise) 500 299); [reflexivity | reflexivity | lia].
  - apply (discounted_price_update blank lenient fair_update
             (Some paradise) 100 299); [reflexivity | reflexivity | lia
             | reflexivity | reflexivity].
Defined.

(** C4 as stated fails. A request with discount 100 on price 299 that asks
    for 5 rooms out of 3 bedrooms is not rejected by the discount check, and
    its discounted price is not stored: the rooms check answers 400. And a
    request that carries the discount 500 alone is saved over a stored price
    of 299. *)
Lemma discount_claim_fails :
  ¬ ((0 < 100 ∧ 299 ≤ 100 →
      status (patch_villa blank lenient fair_discount_many_rooms
                (Some paradise)).1 = 400%nat)
     ∧ (¬ (0 < 100 ∧ 299 ≤ 100) →
        ∃ v, (patch_villa blank lenient fair_discount_many_rooms
                (Some paradise)).2 = Some v
             ∧ discountedPrice v = Some 100))
  ∧ (∃ v, patch_villa blank lenient (only_discount 500) (Some paradise)
            = (mkResponse 200 None (VillaDoc v), Some v)
          ∧ discountedPrice v = Some 500 ∧ pricePerNight v = Some 299).
Proof.
  split.
  - intros [_ Hstored]. destruct Hstored as (v & Hv & Hd); [lia|].
    vm_compute in Hv. injection Hv as <-. discriminate Hd.
  - eexists. split; [reflexivity|]. split; reflexivity.
Qed.

(** C5 on two requests against the default villa: 5 rooms out of 3 bedrooms
    are refused, 2 out of 3 are saved. *)
Lemma min_rooms_update_witness :
  (status (patch_villa blank lenient fair_discount_many_rooms
             (Some paradise)).1 = 400%nat
   ∧ (patch_villa blank lenient fair_discount_many_rooms (Some paradise)).2
     = Some paradise)
  ∧ (patch_villa blank lenient fair_update (Some paradise)
       = (mkResponse 200 None (VillaDoc (assigned fair_update paradise)),
          Some (assigned fair_update paradise))
     ∧ minRooms (assigned fair_update paradise) = Some 2
     ∧ bedrooms (assigned fair_update paradise) = Some 3
     ∧ 2 ≤ 3).
Proof.
  split.
  - apply (min_rooms_update blank lenient fair_discount_many_rooms
             (Some paradise) 5 3); [reflexivity | reflexivity | lia].
  - apply (min_rooms_update blank lenient fair_update
             (Some paradise) 2 3); [reflexivity | reflexivity | lia
             | reflexivity | reflexivity].
Defined.

(** C5 as stated fails. A request for 2 rooms out of 3 bedrooms with a
    discount above the price is not rejected by the rooms check, and its
    [minRooms] is not stored: the discount check answers 400. And a request
    that carries [minRooms] 5 alone is saved over 3 stored bedrooms. *)
Lemma min_rooms_claim_fails :
  ¬ ((3 < 2 →
      status (patch_villa blank lenient high_discount_fair_rooms
                (Some paradise)).1 = 400%nat)
     ∧ (¬ 3 < 2 →
        ∃ v, (patch_villa blank lenient high_discount_fair_rooms
                (Some paradise)).2 = Some v
             ∧ minRooms v = Some 2))
  ∧ (∃ v, patch_villa blank lenient (only_minRooms 5) (Some paradise)
            = (mkResponse 200 None (VillaDoc v), Some v)
          ∧ minRooms v = Some 5 ∧ bedrooms v = Some 3).
Proof.
  split.
  - intros [_ Hstored]. destruct Hstored as (v & Hv & Hm); [lia|].
    vm_compute in Hv. injection Hv as <-. discriminate Hm.
  - eexists. split; [reflexivity|]. split; reflexivity.
Qed.

(** C6 on the default villa: [PATCH /] saves the entry with empty texts, and
    a non-array; [PATCH /bank-details] saves blank texts as empty ones and
    answers 500 to a [null] entry. *)
Lemma malformed_bank_details_saved :
  patch_villa blank lenient (only_bankDetails (JArr [empty_bank])) (Some paradise)
    = (mkResponse 200 None
         (VillaDoc (set_bankDetails (JArr [empty_bank]) paradise)),
       Some (set_bankDetails (JArr [empty_bank]) paradise))
  ∧ patch_villa blank lenient (only_bankDetails (JStr "cash")) (Some paradise)
    = (mkResponse 200 None (VillaDoc (set_bankDetails (JStr "cash") paradise)),
       Some (set_bankDetails (JStr "cash") paradise))
  ∧ patch_bank_details blank lenient
      (JObj [("bankDetails", JArr [blank_bank])]) (Some paradise)
    = (mkResponse 200 (Some "Bank details updated successfully")
         (BankList (JArr [empty_bank])),
       Some (set_bankDetails (JArr [empty_bank]) paradise))
  ∧ patch_bank_details blank lenient
      (JObj [("bankDetails", JArr [JNull])]) (Some paradise)
    = (fail 500 "Error updating bank details", Some paradise).
Proof. repeat split. Qed.

(** C7 on a refused discount. *)
Lemma validation_failure_keeps_villa_witness :
  status (sample_route (PatchVilla high_discount_fair_rooms) (Some paradise)).1
    = 400%nat
  ∧ (sample_route (PatchVilla high_discount_fair_rooms) (Some paradise)).2
    = Some paradise.
Proof.
  split; [reflexivity|].
  apply validation_failure_keeps_villa. reflexivity.
Defined.

(** C8 on the third of five slides, and on an index beyond them. *)
Lemma delete_slide_keeps_order_witness :
  (delete_slide lenient 2 (Some gallery)).2
    = Some (set_slideImages
              [Some "/uploads/villa/a.jpg"; Some "/uploads/villa/b.jpg";
               Some "/uploads/villa/d.jpg"; Some "/uploads/villa/e.jpg"]
              gallery)
  ∧ delete_slide lenient 5 (Some gallery)
    = (fail 404 "Slide image not found", Some gallery).
Proof.
  split.
  - apply (delete_slide_keeps_order lenient gallery 2); reflexivity.
  - apply (delete_slide_keeps_order lenient gallery 5); reflexivity.
Defined.

(** C10 on an order that repeats an index and leaves the sequence. *)
Lemma reorder_maps_indices_witness :
  (patch_slides_reorder lenient (Some [4; 4; 0; 9; -1]) (Some gallery)).2
    = Some (set_slideImages
              [Some "/uploads/villa/e.jpg"; Some "/uploads/villa/e.jpg";
               Some "/uploads/villa/a.jpg"; None; None]
              gallery).
Proof.
  apply (reorder_maps_indices lenient gallery [4; 4; 0; 9; -1]). reflexivity.
Defined.

(** C9 over the blank document. *)
Lemma villa_created_once_never_deleted_witness :
  get_villa blank lenient None
    = (mkResponse 200 None (VillaDoc paradise), Some paradise)
  ∧ pricePerNight paradise = Some 299.
Proof.
  destruct (villa_created_once_never_deleted blank lenient
              "https://villa.example" (λ _, None) eq_refl)
    as (Hget & Hprice & _).
  split; [exact Hget | exact Hprice].
Defined.

End VillaRouterProofs.

(* ===================================================================== *)
(** ** Properties of the booking lifecycle *)
(* ===================================================================== *)

Module BookingProofs.

Import Booking.

Section Proofs.

Variable paymentWindow : Z.

(** *** Properties that every call keeps *)

Section Invariant.

(** A property of the stored record that every transition keeps. *)
Variable P : Booking → Prop.
Hypothesis P_select : ∀ m b b', P b → selectPaymentMethod m b = Ok b' → P b'.
Hypothesis P_submit :
  ∀ now slip b b', P b → submitPaymentEvidence now slip b = Ok b' → P b'.
Hypothesis P_confirm : ∀ b b', P b → confirm b = Ok b' → P b'.
Hypothesis P_cancel : ∀ b b', P b → cancel b = Ok b' → P b'.
Hypothesis P_expire : ∀ now b, P b → P (expireIfDue now b).

Lemma transition_keeps (f : Booking → result Booking) (bid bid' : string)
    (s : store) (b : Booking) :
  (∀ b b', P b → f b = Ok b' → P b') →
  s !! bid = Some b → P b →
  ∃ b', (transition f bid' s).2 !! bid = Some b' ∧ P b'.
Proof.
  intros Hf Hb HP. unfold transition.
  destruct (s !! bid') as [c|] eqn:Hc; simpl; [|eauto].
  destruct (f c) as [c'|e] eqn:Hfc; simpl; [|eauto].
  destruct (decide (bid' = bid)) as [->|Hne].
  - rewrite lookup_insert_eq. simplify_eq. eauto.
  - rewrite lookup_insert_ne; eauto.
Qed.

Lemma serve_keeps (now : Z) (c : call) (bid : string) (s : store)
    (b : Booking) :
  s !! bid = Some b → P b →
  ∃ b', (serve paymentWindow now c s).2 !! bid = Some b' ∧ P b'.
Proof.
  intros Hb HP. destruct c as [who ci co g mg p d|bid'|bid' u]; simpl.
  - unfold createBooking.
    destruct (newBooking _ _ _ _ _ _ _ _ _ _) as [c|e]; simpl; [|eauto].
    rewrite lookup_insert_ne; [eauto|].
    intros Heq. apply (is_fresh (dom s)). rewrite Heq.
    apply elem_of_dom. eauto.
  - unfold getBooking. apply (transition_keeps _ _ _ _ b); [|done..].
    intros c c' Hc [= <-]. by apply P_expire.
  - unfold updateBooking.
    destruct (u_status u) as [[]|]; simpl; [..|by exists b].
    + by apply (transition_keeps _ _ _ _ b).
    + destruct (u_paymentMethod u) as [m|]; simpl; [|by exists b].
      apply (transition_keeps _ _ _ _ b); [|done..]. apply P_select.
    + destruct (u_paymentDetails u) as [d|]; simpl; [|by exists b].
      apply (transition_keeps _ _ _ _ b); [|done..]. apply P_submit.
    + by apply (transition_keeps _ _ _ _ b).
    + by apply (transition_keeps _ _ _ _ b).
    + by apply (transition_keeps _ _ _ _ b).
Qed.

Lemma run_keeps (history : list (Z * call)) (bid : string) (s : store)
    (b : Booking) :
  s !! bid = Some b → P b →
  ∃ b', run paymentWindow history s !! bid = Some b' ∧ P b'.
Proof.
  revert s b. induction history as [|[now c] history IH]; intros s b Hb HP.
  - eauto.
  - simpl. destruct (serve_keeps now c bid s b Hb HP) as (b' & Hb' & HP').
    eapply IH; eauto.
Qed.

(** When new bookings have the property too, every booking of the store has
    it after any history. *)
Hypothesis P_new :
  ∀ now bid who ci co g mg p d b,
    newBooking paymentWindow now bid who ci co g mg p d = Ok b → P b.




End Invariant.

(** *** One evidence per booking *)

(** The source of the transition [pending_payment → pending] is the only
    status from which evidence is accepted. *)
Lemma submit_needs_pending_payment (now : Z) (slip : string) (b b' : Booking) :
  submitPaymentEvidence now slip b = Ok b' →
  status b = pending_payment ∧ now < expiresAt b
  ∧ status b' = pending ∧ paymentSlipUrl b' = Some slip
  ∧ bookingDetails b' = bookingDetails b.
Proof.
  unfold submitPaymentEvidence.
  destruct (status b); try discriminate.
  destruct (now <? expiresAt b) eqn:Hnow; [|discriminate].
  intros [= <-]. simpl. repeat split; try done. by apply Z.ltb_lt.
Qed.

Lemma submit_rejected (now : Z) (slip : string) (b : Booking) :
  status b ≠ pending_payment ∨ expiresAt b ≤ now →
  submitPaymentEvidence now slip b = Err InvalidTransition.
Proof.
  intros Hwhy. unfold submitPaymentEvidence.
  destruct (status b); try done.
  destruct (now <? expiresAt b) eqn:Hnow; [|done].
  apply Z.ltb_lt in Hnow. destruct Hwhy; [done|lia].
Qed.

Lemma transition_ok (f : Booking → result Booking) (bid : string)
    (s s' : store) (b' : Booking) :
  transition f bid s = (Ok b', s') →
  ∃ b, s !! bid = Some b ∧ f b = Ok b' ∧ s' = <[bid := b']> s.
Proof.
  unfold transition. destruct (s !! bid) as [b|]; [|discriminate].
  destruct (f b) eqn:Hf; intros [= <- <-]; eauto.
Qed.

Lemma transition_err (f : Booking → result Booking) (bid : string)
    (s : store) (b : Booking) (e : error) :
  s !! bid = Some b → f b = Err e → transition f bid s = (Err e, s).
Proof. intros Hb Hf. unfold transition. by rewrite Hb, Hf. Qed.

(** The evidence [slip] is on record: the status is past [pending_payment]. *)
Lemma recorded_is_kept (slip : string) (history : list (Z * call))
    (bid : string) (s : store) (b : Booking) :
  s !! bid = Some b →
  paymentSlipUrl b = Some slip →
  status b ≠ draft → status b ≠ pending_payment →
  ∃ b', run paymentWindow history s !! bid = Some b'
        ∧ paymentSlipUrl b' = Some slip
        ∧ status b' ≠ draft ∧ status b' ≠ pending_payment.
Proof.
  intros Hb Hslip Hd Hp.
  apply (run_keeps
           (λ b, paymentSlipUrl b = Some slip
                 ∧ status b ≠ draft ∧ status b ≠ pending_payment)) with b;
    [..|done|done].
  - intros m c c' (_ & Hc & _). unfold selectPaymentMethod.
    by destruct (status c).
  - intros now sl c c' (_ & _ & Hc) Hsub.
    by apply submit_needs_pending_payment in Hsub as (? & _).
  - intros c c' (? & ? & ?). unfold confirm.
    destruct (status c) eqn:Hst; try done. by intros [= <-].
  - intros c c' (? & ? & ?). unfold cancel.
    destruct (terminal (status c)); [done|]. by intros [= <-].
  - intros now c (Hc1 & Hc2 & Hc3). unfold expireIfDue.
    rewrite Hc1. by destruct (_ && _).
Qed.

Section Client.

(** The upload service of the payment page. *)
Variable is_image : string → bool.
Variable sizeCeiling : Z.
Variable storedUrl : PaymentPage.File → string.

(** The store after [handleConfirmPayment]: the store itself, or the store
    after the one [PATCH] the page sends. *)
Lemma handleConfirmPayment_store (now : Z) (bid : string)
    (p : PaymentPage.page) (s : store) :
  (PaymentPage.handleConfirmPayment is_image sizeCeiling storedUrl
     now bid p s).1.2 = s
  ∨ ∃ d, (PaymentPage.handleConfirmPayment is_image sizeCeiling storedUrl
            now bid p s).1.2
         = (updateBooking now bid (mkUpdate None (Some pending) (Some d)) s).2.
Proof.
  unfold PaymentPage.handleConfirmPayment.
  destruct (PaymentPage.selectedFile p) as [file|]; [|by left].
  destruct (PaymentPage.isPaymentConfirmed p); [by left|].
  destruct (PaymentPage.uploadSlip _ _ _ file) as [url|]; [|by left].
  right. exists (mkPayment (Some (PaymentPage.selectedMethod p)) url pending).
  simpl. by destruct (updateBooking _ _ _ _) as [[] ?].
Qed.

(** C1. Once a submission of evidence for a booking has been accepted, then
    after any later history of calls the booking still holds the slip of that
    submission, every further submission for it is answered
    [InvalidTransition] (409) and leaves the store as it is, and so does the
    payment page's [handleConfirmPayment], whatever the state of the page. *)
Theorem evidence_submitted_once (now : Z) (bid : string)
    (m : option Method) (d : PaymentDetails) (s s1 : store) (b : Booking) :
  updateBooking now bid (mkUpdate m (Some pending) (Some d)) s = (Ok b, s1) →
  ∀ history, let s2 := run paymentWindow history s1 in
    (∃ b2, s2 !! bid = Some b2 ∧ paymentSlipUrl b2 = Some (slipUrl d))
    ∧ (∀ now2 m2 d2,
         updateBooking now2 bid (mkUpdate m2 (Some pending) (Some d2)) s2
           = (Err InvalidTransition, s2))
    ∧ http_status InvalidTransition = 409%nat
    ∧ (∀ now2 p,
         (PaymentPage.handleConfirmPayment is_image sizeCeiling storedUrl
            now2 bid p s2).1.2 = s2).
Proof.
  intros Hfirst history s2.
  unfold updateBooking in Hfirst. simpl in Hfirst.
  apply transition_ok in Hfirst as (b0 & Hb0 & Hsub & ->).
  apply submit_needs_pending_payment in Hsub as (_ & _ & Hst & Hslip & _).
  destruct (recorded_is_kept (slipUrl d) history bid (<[bid := b]> s) b)
    as (b2 & Hb2 & Hslip2 & Hd2 & Hp2).
  { apply lookup_insert_eq. }
  { done. }
  { by rewrite Hst. }
  { by rewrite Hst. }
  fold s2 in Hb2.
  assert (∀ now2 m2 d2,
            updateBooking now2 bid (mkUpdate m2 (Some pending) (Some d2)) s2
              = (Err InvalidTransition, s2)) as Hagain.
  { intros now2 m2 d2. unfold updateBooking. simpl.
    apply (transition_err _ _ _ b2); [done|].
    apply submit_rejected. by left. }
  split; [eauto|]. split; [done|]. split; [done|].
  intros now2 p.
  destruct (handleConfirmPayment_store now2 bid p s2) as [->|[d2 ->]]; [done|].
  by rewrite Hagain.
Qed.

(** *** Expiry *)




End Client.

End Proofs.

Import BookingSamples.

(** C1 on the sample booking: its first slip is accepted at time 1500; after
    the later calls the slip is still on record and a second slip is
    refused. *)
Lemma evidence_submitted_once_witness :
  let s2 := run 1000 later_calls (<["b1" := submitted]> one_awaiting) in
  (∃ b2, s2 !! "b1" = Some b2
         ∧ paymentSlipUrl b2 = Some "/uploads/slips/one.jpg")
  ∧ updateBooking 2900 "b1" (mkUpdate None (Some pending) (Some slip_two)) s2
    = (Err InvalidTransition, s2).
Proof.
  intros s2.
  assert (updateBooking 1500 "b1" (mkUpdate None (Some pending) (Some slip_one))
            one_awaiting
          = (Ok submitted, <["b1" := submitted]> one_awaiting)) as Hfirst.
  { vm_compute. reflexivity. }
  destruct (evidence_submitted_once 1000 jpeg_only 10 served 1500 "b1" None
              slip_one one_awaiting (<["b1" := submitted]> one_awaiting)
              submitted Hfirst later_calls)
    as (Hkept & Hagain & _).
  split; [exact Hkept | apply Hagain].
Defined.


(** The payment calls on the new stay: the first slip is recorded, the
    second one is not, and the booking stays pending. *)
Example payment_calls_outcome :
  (λ b, (status b, paymentSlipUrl b, totalPrice (bookingDetails b)))
    <$> run 1000 payment_calls {[ "0" := new_stay ]} !! "0"
  = Some (pending, Some "/uploads/slips/one.jpg", 897).
Proof. vm_compute. reflexivity. Qed.

End BookingProofs.

(* ===================================================================== *)
(** ** Further properties of the villa router *)
(* ===================================================================== *)

Module VillaRouterExtras.

Import VillaRouter RequestKinds.

Section Proofs.

Variable newVilla : Villa.
Variable schema_ok : Villa → bool.
Variable CLIENT_URL : string.
Variable JSON_parse : string → option jsval.

Ltac step_handler :=
  repeat (progress unfold handle, create, findOne_or_404, reject_if, or_throw,
            findOne, save, reply, throw, mbind, M_bind, mret, M_ret in * );
  simpl in *.

Ltac open_routes :=
  unfold get_villa, get_villa_body, patch_background,
    patch_background_body, post_slides, post_slides_body, delete_background,
    delete_background_body, delete_slide, delete_slide_body,
    patch_slides_reorder, patch_slides_reorder_body, post_promptpay_qr,
    post_promptpay_qr_body, delete_promptpay_qr, delete_promptpay_qr_body,
    post_room, post_room_body, patch_room, patch_room_body, delete_room,
    delete_room_body in *.

(** A layer of [assigned] leaves the fields it does not assign. *)
Ltac skip_layer f :=
  match goal with
  | |- context [?proj (f ?b ?v)] =>
      replace (proj (f b v)) with (proj v)
        by (unfold f; repeat case_match; done)
  end.

Ltac skip_layers :=
  unfold assigned;
  repeat first
    [ skip_layer assign_promptPay | skip_layer assign_bankDetails
    | skip_layer assign_maxGuests | skip_layer assign_priceReductionPerRoom
    | skip_layer assign_bathrooms | skip_layer assign_bedrooms
    | skip_layer assign_minRooms | skip_layer assign_discountedPrice
    | skip_layer assign_pricePerNight | skip_layer assign_beachfront
    | skip_layer assign_texts ].

(** [PATCH /] never assigns the images, the slides or the rooms. *)
Lemma assigned_media (b : villa_body) (v : Villa) :
  backgroundImage (assigned b v) = backgroundImage v
  ∧ slideImages (assigned b v) = slideImages v
  ∧ rooms (assigned b v) = rooms v.
Proof. repeat split; by skip_layers. Qed.

(** X1. A request that is answered anything but 200 (400, 404 or 500)
    leaves the collection as it was. *)
Theorem errors_never_write (r : request) (db : option Villa) :
  status (route newVilla schema_ok CLIENT_URL JSON_parse r db).1 ≠ 200%nat →
  (route newVilla schema_ok CLIENT_URL JSON_parse r db).2 = db.
Proof.
  intros Hnot.
  by destruct (VillaRouterProofs.route_outcome newVilla schema_ok CLIENT_URL
                 JSON_parse r db) as [Hkept|[H200 _]].
Qed.

(** X2. On an empty collection only [GET /], [PATCH /] and
    [PATCH /bank-details] can store a villa: every other request is
    answered 404, or 400 when its file is missing, and the collection stays
    empty. *)
Theorem villa_created_only_by_three_routes (r : request) :
  creates_villa r = false →
  (route newVilla schema_ok CLIENT_URL JSON_parse r None).2 = None
  ∧ (status (route newVilla schema_ok CLIENT_URL JSON_parse r None).1 = 404%nat
     ∨ status (route newVilla schema_ok CLIENT_URL JSON_parse r None).1
       = 400%nat).
Proof.
  destruct r; simpl; try discriminate; intros _; open_routes; step_handler;
    repeat (case_match; simpl in *; simplify_eq); auto.
Qed.

(** [PATCH /bank-details] assigns the bank details only. *)
Lemma patch_bank_details_frame (body : jsval) (villa : Villa) :
  ∃ v', (patch_bank_details newVilla schema_ok body (Some villa)).2 = Some v'
        ∧ slideImages v' = slideImages villa ∧ rooms v' = rooms villa
        ∧ backgroundImage v' = backgroundImage villa
        ∧ promptPay v' = promptPay villa ∧ details v' = details villa.
Proof.
  unfold patch_bank_details, patch_bank_details_body. step_handler.
  destruct (get body "bankDetails") as [given|]; simpl; [|by exists villa].
  destruct given; simpl; try by exists villa.
  pose proof (VillaRouterProofs.validate_banks_store xs (Some villa)) as Hdb.
  destruct (validate_banks xs (Some villa)) as [[[]| |] db']; simpl in *;
    subst; try by exists villa.
  destruct (mapM format_bank xs); simpl; [|by exists villa].
  destruct (schema_ok _); simpl; [|by exists villa].
  by eexists.
Qed.

Lemma patch_villa_frame (b : villa_body) (villa : Villa) :
  ∃ v', (patch_villa newVilla schema_ok b (Some villa)).2 = Some v'
        ∧ slideImages v' = slideImages villa ∧ rooms v' = rooms villa
        ∧ backgroundImage v' = backgroundImage villa.
Proof.
  rewrite VillaRouterProofs.patch_villa_cases. simpl.
  destruct (assigned_media b villa) as (Hbg & Hslides & Hrooms).
  repeat case_match; simpl; eauto.
Qed.

(** X3. A request to a villa on record keeps a villa on record and changes
    only the part it is about: the slides change only under the three slide
    routes, the rooms only under the three room routes, the background image
    only under its two routes, PromptPay only under its two routes and
    [PATCH /], the bank details only under [PATCH /bank-details] and
    [PATCH /], and the texts, prices and counts only under [PATCH /]. *)
Theorem request_changes_only_its_part (r : request) (villa : Villa) :
  ∃ v', (route newVilla schema_ok CLIENT_URL JSON_parse r (Some villa)).2
        = Some v'
    ∧ (about_slides r = false → slideImages v' = slideImages villa)
    ∧ (about_rooms r = false → rooms v' = rooms villa)
    ∧ (about_background r = false → backgroundImage v' = backgroundImage villa)
    ∧ (about_promptPay r = false → promptPay v' = promptPay villa)
    ∧ (about_bankDetails r = false → bankDetails v' = bankDetails villa)
    ∧ (about_details r = false → details v' = details villa).
Proof.
  destruct r; simpl.
  2: { destruct (patch_bank_details_frame body villa)
         as (v' & -> & ? & ? & ? & ? & ?).
       exists v'. by repeat split. }
  2: { destruct (patch_villa_frame body villa) as (v' & -> & ? & ? & ?).
       exists v'. by repeat split. }
  all: open_routes; step_handler;
    repeat (case_match; simpl in *; simplify_eq);
    eexists; (split; [reflexivity|]); by repeat split.
Qed.

(** *** The bank details route *)

Lemma dash_runs_no_space (in_run : bool) (s : string) :
  has_space (dash_runs in_run s) = false.
Proof.
  revert in_run. induction s as [|a rest IH]; intros in_run; [done|].
  simpl. destruct (is_space a) eqn:Ha.
  - destruct in_run; simpl; by rewrite ?IH.
  - simpl. by rewrite Ha, IH.
Qed.

Lemma trimStart_start (s : string) : starts_with_space (trimStart s) = false.
Proof.
  induction s as [|a rest IH]; [done|].
  simpl. destruct (is_space a) eqn:Ha; [done|]. simpl. done.
Qed.

Lemma trimEnd_end (s : string) : ends_with_space (trimEnd s) = false.
Proof.
  induction s as [|a rest IH]; [done|].
  simpl. destruct (trimEnd rest) as [|c kept] eqn:Hrest.
  - by destruct (is_space a) eqn:Ha; simpl.
  - done.
Qed.

Lemma trimEnd_start (s : string) :
  starts_with_space s = false → starts_with_space (trimEnd s) = false.
Proof.
  destruct s as [|a rest]; [done|]. simpl. intros Ha.
  destruct (trimEnd rest); [by rewrite Ha|done].
Qed.

Lemma trim_shape (s : string) :
  starts_with_space (trim s) = false ∧ ends_with_space (trim s) = false.
Proof.
  unfold trim. split; [|apply trimEnd_end].
  apply trimEnd_start, trimStart_start.
Qed.

Lemma format_bank_texts (bank : jsval) (b n a : string) :
  bank_texts bank = Some (b, n, a) →
  format_bank bank
    = Some (JObj [("bank", JStr (trim b));
                  ("accountNumber", JStr (replace_spaces (trim n)));
                  ("accountName", JStr (trim a))])
  ∧ lacks_field bank
    = Some (negb (str_truthy b) || negb (str_truthy n) || negb (str_truthy a)).
Proof.
  unfold bank_texts, format_bank, lacks_field.
  destruct (get bank "bank") as [[]|]; try done.
  destruct (get bank "accountNumber") as [[]|]; try done.
  destruct (get bank "accountName") as [[]|]; try done.
  by intros [= -> -> ->].
Qed.

(** The entries the loop of [PATCH /bank-details] lets through. *)
Lemma validate_banks_pass (banks : list jsval) (db : option Villa) :
  Forall (λ bank, lacks_field bank = Some false) banks →
  validate_banks banks db = (Next (), db).
Proof.
  induction 1 as [|bank rest Hbank _ IH]; [done|].
  simpl. step_handler. rewrite Hbank. simpl. apply IH.
Qed.

(** X4. [PATCH /bank-details] scans the entries in order. When the first
    entry that is not complete lacks a text (its bank name, account number
    or account name is absent or empty), the answer is 400; when it is
    [null], the handler throws and the answer is 500. In both cases, and
    when the value is not an array, nothing is saved. *)
Theorem bank_details_first_bad_entry (db : option Villa)
    (good rest : list jsval) (bad : jsval) :
  Forall (λ bank, lacks_field bank = Some false) good →
  let body := JObj [("bankDetails", JArr (good ++ bad :: rest))] in
  (lacks_field bad = Some true →
   patch_bank_details newVilla schema_ok body db
   = (fail 400 "Each bank detail must include bank name, account number, and account name",
      db))
  ∧ (lacks_field bad = None →
     patch_bank_details newVilla schema_ok body db
     = (fail 500 "Error updating bank details", db))
  ∧ (∀ given, isArray given = false →
     patch_bank_details newVilla schema_ok (JObj [("bankDetails", given)]) db
     = (fail 400 "Bank details must be an array", db)).
Proof.
  intros Hgood body.
  assert (∀ o, lacks_field bad = o →
            validate_banks (good ++ bad :: rest) db
            = match o with
              | Some true =>
                  (Reply (fail 400 "Each bank detail must include bank name, account number, and account name"), db)
              | Some false => validate_banks rest db
              | None => (Throw, db)
              end) as Hscan.
  { intros o Ho. induction Hgood as [|bank good' Hbank _ IH]; simpl.
    - step_handler. rewrite Ho. by destruct o as [[]|].
    - step_handler. rewrite Hbank. simpl. apply IH. }
  repeat split.
  - intros Hbad. unfold patch_bank_details, patch_bank_details_body.
    step_handler. by rewrite (Hscan _ Hbad).
  - intros Hbad. unfold patch_bank_details, patch_bank_details_body.
    step_handler. by rewrite (Hscan _ Hbad).
  - intros given Hgiven. unfold patch_bank_details, patch_bank_details_body.
    step_handler. by destruct given.
Qed.

(** X5. When every entry of the array carries its three texts as non-empty
    strings of the ASCII range and the save succeeds, [PATCH /bank-details]
    answers 200 and stores one entry per entry received, in order: the bank
    name and the account name trimmed, and the account number trimmed with
    every run of white space replaced by one dash. A stored account number
    holds no white space and no stored text starts or ends with white space.
    Texts with characters outside the ASCII range are left out. *)
Theorem bank_details_stored_normalised (db : option Villa)
    (banks : list jsval) :
  Forall (λ bank, ∃ b n a, bank_texts bank = Some (b, n, a)
                           ∧ str_truthy b = true ∧ str_truthy n = true
                           ∧ str_truthy a = true
                           ∧ ascii_text b = true ∧ ascii_text n = true
                           ∧ ascii_text a = true) banks →
  ∃ stored,
    mapM format_bank banks = Some stored
    ∧ length stored = length banks
    ∧ (schema_ok (set_bankDetails (JArr stored) (default newVilla db)) = true →
       patch_bank_details newVilla schema_ok
         (JObj [("bankDetails", JArr banks)]) db
       = (mkResponse 200 (Some "Bank details updated successfully")
            (BankList (JArr stored)),
          Some (set_bankDetails (JArr stored) (default newVilla db))))
    ∧ (∀ i bank, banks !! i = Some bank →
       ∃ b n a, bank_texts bank = Some (b, n, a)
         ∧ stored !! i
           = Some (JObj [("bank", JStr (trim b));
                         ("accountNumber", JStr (replace_spaces (trim n)));
                         ("accountName", JStr (trim a))])
         ∧ has_space (replace_spaces (trim n)) = false
         ∧ starts_with_space (trim b) = false
         ∧ ends_with_space (trim b) = false
         ∧ starts_with_space (trim a) = false
         ∧ ends_with_space (trim a) = false).
Proof.
  intros Hall.
  assert (Forall (λ bank, lacks_field bank = Some false) banks) as Hpass.
  { eapply Forall_impl; [exact Hall|].
    intros bank (b & n & a & Htexts & Hb & Hn & Ha & _).
    destruct (format_bank_texts bank b n a Htexts) as [_ ->].
    by rewrite Hb, Hn, Ha. }
  assert (∃ stored, mapM format_bank banks = Some stored) as [stored Hstored].
  { apply mapM_is_Some_2. eapply Forall_impl; [exact Hall|].
    intros bank (b & n & a & Htexts & _). simpl.
    destruct (format_bank_texts bank b n a Htexts) as [-> _]. eauto. }
  exists stored. split; [done|].
  pose proof (length_mapM _ _ _ Hstored) as Hlen.
  split; [done|]. split.
  - intros Hsave. unfold patch_bank_details, patch_bank_details_body.
    step_handler. rewrite (validate_banks_pass _ _ Hpass). simpl.
    rewrite Hstored. simpl. by rewrite Hsave.
  - intros i bank Hbank.
    destruct (proj1 (Forall_lookup _ _) Hall i bank Hbank)
      as (b & n & a & Htexts & _).
    exists b, n, a. split; [done|].
    destruct (format_bank_texts bank b n a Htexts) as [Hformat _].
    split.
    { apply mapM_Some_1 in Hstored.
      destruct (Forall2_lookup_l _ _ _ _ _ Hstored Hbank) as (e & He & Hfe).
      rewrite He. congruence. }
    split; [apply dash_runs_no_space|].
    destruct (trim_shape b), (trim_shape a). done.
Qed.

(** *** Slides *)

Lemma url_truthy (prefix filename : string) :
  str_truthy (CLIENT_URL +:+ prefix +:+ filename) = true
  ∨ (CLIENT_URL = "" ∧ prefix = "").
Proof.
  destruct CLIENT_URL; [|by left].
  destruct prefix; [by right|by left].
Qed.

(** X6. [POST /slides] with at least one file replaces the whole slide
    sequence by the URLs of the uploaded files, in upload order (when the
    villa exists and the save succeeds). Each of these entries is a slide:
    [DELETE /slides/i] on the saved villa is never answered 404 for an [i]
    below the number of files. *)
Theorem uploaded_slides_replace_and_can_be_deleted (files : list string)
    (villa : Villa) :
  files ≠ [] →
  let uploaded := map (λ f, Some (villa_url CLIENT_URL f)) files in
  schema_ok (set_slideImages uploaded villa) = true →
  post_slides schema_ok CLIENT_URL files (Some villa)
    = (mkResponse 200 (Some "Slide images updated successfully")
         (SlideList uploaded),
       Some (set_slideImages uploaded villa))
  ∧ length uploaded = length files
  ∧ (∀ i f, files !! i = Some f →
       uploaded !! i = Some (Some (villa_url CLIENT_URL f))
       ∧ status (delete_slide schema_ok i
                   (Some (set_slideImages uploaded villa))).1 ≠ 404%nat).
Proof.
  intros Hfiles uploaded Hsave.
  split; [|split].
  - unfold post_slides, post_slides_body. step_handler.
    rewrite bool_decide_eq_false_2 by done. simpl.
    fold uploaded. by rewrite Hsave.
  - subst uploaded. apply List.length_map.
  - intros i f Hf.
    assert (uploaded !! i = Some (Some (villa_url CLIENT_URL f))) as Hi.
    { subst uploaded. rewrite list_lookup_fmap. by rewrite Hf. }
    split; [done|].
    unfold delete_slide, delete_slide_body. step_handler. rewrite Hi. simpl.
    unfold villa_url.
    destruct (url_truthy "/uploads/villa/" f) as [->|[_ ?]]; [|done].
    simpl. destruct (schema_ok (set_slideImages (delete i uploaded) _));
      simpl; lia.
Qed.

Lemma index_of_nat {A : Type} (l : list (option A)) (i : nat) :
  index l (Z.of_nat i) = mjoin (l !! i).
Proof.
  unfold index. destruct (Z.ltb_spec (Z.of_nat i) 0); [lia|].
  by rewrite Nat2Z.id.
Qed.

Lemma identity_order_reads_all {A : Type} (l : list (option A)) :
  map (λ z, index l z) (Z.of_nat <$> seq 0 (length l)) = l.
Proof.
  apply list_eq. intros i.
  rewrite list_lookup_fmap, list_lookup_fmap.
  destruct (decide (i < length l)%nat) as [Hlt|Hge].
  - rewrite lookup_seq_lt by done. simpl. rewrite index_of_nat.
    destruct (lookup_lt_is_Some_2 l i Hlt) as [e He]. by rewrite He.
  - rewrite lookup_seq_ge by lia. simpl.
    symmetry. apply lookup_ge_None_2. lia.
Qed.

(** X7. When [newOrder] is a rearrangement of the positions [0 .. n-1] of
    the [n] slides and the save succeeds, [PATCH /slides/reorder] saves a
    rearrangement of the old sequence: every slide is kept, none is
    repeated. With the positions in their own order the sequence is saved
    as it was. *)
Theorem reorder_by_permutation (villa : Villa) (order : list Z) :
  let slides := slideImages villa in
  let positions := Z.of_nat <$> seq 0 (length slides) in
  let reordered := map (λ z, index slides z) order in
  order ≡ₚ positions →
  schema_ok (set_slideImages reordered villa) = true →
  (patch_slides_reorder schema_ok (Some order) (Some villa)).2
    = Some (set_slideImages reordered villa)
  ∧ reordered ≡ₚ slides
  ∧ length reordered = length slides
  ∧ (order = positions → reordered = slides).
Proof.
  intros slides positions reordered Hperm Hsave.
  split; [|split; [|split]].
  - unfold patch_slides_reorder, patch_slides_reorder_body. step_handler.
    fold slides. fold reordered. by rewrite Hsave.
  - trans (map (λ z, index slides z) positions).
    + by apply Permutation_map.
    + subst positions. by rewrite identity_order_reads_all.
  - subst reordered. rewrite length_map, Hperm. subst positions.
    by rewrite length_fmap, length_seq.
  - intros ->. apply identity_order_reads_all.
Qed.

(** *** The background image and the PromptPay code *)

(** X8. [DELETE /background] on a villa with a background image clears it
    (when the save succeeds), and a second [DELETE /background] is answered
    404 and changes nothing; so is one on a villa without background image
    or on an empty collection. *)
Theorem background_deleted_once (villa : Villa) :
  let cleared := set_backgroundImage None villa in
  (opt_truthy (backgroundImage villa) = true → schema_ok cleared = true →
   delete_background schema_ok (Some villa)
     = (mkResponse 200 (Some "Background image deleted successfully") NoData,
        Some cleared)
   ∧ delete_background schema_ok (Some cleared)
     = (fail 404 "Background image not found", Some cleared))
  ∧ (opt_truthy (backgroundImage villa) = false →
     delete_background schema_ok (Some villa)
     = (fail 404 "Background image not found", Some villa))
  ∧ delete_background schema_ok None
    = (fail 404 "Background image not found", None).
Proof.
  intros cleared. unfold delete_background, delete_background_body.
  step_handler. split; [|split; [|done]].
  - intros Himage Hsave. rewrite Himage. simpl. fold cleared.
    by rewrite Hsave.
  - by intros ->.
Qed.

(** X9. The payment page offers PromptPay ([hasPromptPay]) exactly when
    [DELETE /promptpay-qr] would find a code to delete: the route answers
    404 and changes nothing if and only if [hasPromptPay] is false. After an
    accepted upload of a code [hasPromptPay] is true, and after an accepted
    deletion it is false. *)
Theorem promptpay_offer_follows_qr (db : option Villa) :
  (PaymentPage.hasPromptPay db = false ↔
   delete_promptpay_qr schema_ok db = (fail 404 "QR code not found", db))
  ∧ (∀ filename villa v',
       post_promptpay_qr schema_ok CLIENT_URL (Some filename) (Some villa)
         = (mkResponse 200 (Some "QR code uploaded successfully")
              (Url (qr_url CLIENT_URL filename)), Some v') →
       PaymentPage.hasPromptPay (Some v') = true)
  ∧ (status (delete_promptpay_qr schema_ok db).1 = 200%nat →
     PaymentPage.hasPromptPay (delete_promptpay_qr schema_ok db).2 = false).
Proof.
  unfold PaymentPage.hasPromptPay.
  split; [|split].
  - unfold delete_promptpay_qr, delete_promptpay_qr_body. step_handler.
    destruct db as [villa|]; simpl; [|done].
    destruct (promptPay villa) as [[qr]|]; simpl; [|done].
    destruct (opt_truthy qr); simpl; [|done].
    split; [done|]. by destruct (schema_ok _).
  - intros filename villa v'.
    unfold post_promptpay_qr, post_promptpay_qr_body. step_handler.
    destruct (schema_ok _); simpl; [|done].
    intros [= <-]. simpl. unfold qr_url.
    by destruct (url_truthy "/uploads/QR/" filename) as [->|[_ ?]].
  - unfold delete_promptpay_qr, delete_promptpay_qr_body. step_handler.
    destruct db as [villa|]; simpl; [|done].
    destruct (promptPay villa) as [[qr]|]; simpl; [|done].
    destruct (opt_truthy qr); simpl; [|done].
    by destruct (schema_ok _).
Qed.

(** *** Rooms *)

Lemma set_rooms_same (villa : Villa) (rs : list Room) :
  set_rooms (rooms villa) (set_rooms rs villa) = villa.
Proof. by destruct villa. Qed.

Lemma delete_room_last (v : Villa) (rs : list Room) (room : Room) :
  rooms v = (rs ++ [room])%list →
  delete_room schema_ok (length rs) (Some v)
  = if schema_ok (set_rooms rs v)
    then (mkResponse 200 (Some "Room deleted successfully")
            (VillaDoc (set_rooms rs v)), Some (set_rooms rs v))
    else (fail 500 "Error deleting room", Some v).
Proof.
  intros Hrooms. unfold delete_room, delete_room_body. step_handler.
  rewrite Hrooms.
  rewrite (lookup_app_r rs [room]), Nat.sub_diag by done. simpl.
  rewrite (delete_middle rs [] room), app_nil_r.
  by destruct (schema_ok _).
Qed.

(** X10. [POST /rooms] with a name and a description that parse as JSON
    appends one room after the rooms on record, which keep their positions;
    its images are the URLs of the uploaded files. [DELETE /rooms/n] for the
    position [n] of the new room then gives back the villa as it was before
    the room was added (both saves succeeding). *)
Theorem room_added_then_deleted (villa : Villa) (name description : string)
    (files : list string) (n d : jsval) :
  JSON_parse name = Some n →
  JSON_parse description = Some d →
  let room := mkRoom n d (map (room_url CLIENT_URL) files) in
  let added := set_rooms (rooms villa ++ [room]) villa in
  schema_ok added = true →
  schema_ok villa = true →
  post_room schema_ok CLIENT_URL JSON_parse (Some name) (Some description)
            files (Some villa)
    = (mkResponse 200 (Some "Room added successfully") (VillaDoc added),
       Some added)
  ∧ rooms added !! length (rooms villa) = Some room
  ∧ (∀ j, (j < length (rooms villa))%nat →
       rooms added !! j = rooms villa !! j)
  ∧ delete_room schema_ok (length (rooms villa)) (Some added)
    = (mkResponse 200 (Some "Room deleted successfully") (VillaDoc villa),
       Some villa).
Proof.
  intros Hn Hd room added Hadded Hvilla.
  split; [|split; [|split]].
  - unfold post_room, post_room_body, parse_field. step_handler.
    rewrite Hn, Hd. simpl. unfold added, room in Hadded. by rewrite Hadded.
  - simpl. by rewrite lookup_app_r, Nat.sub_diag.
  - intros j Hj. simpl. by rewrite lookup_app_l.
  - rewrite (delete_room_last added (rooms villa) room) by done.
    unfold added. rewrite set_rooms_same. by rewrite Hvilla.
Qed.

(** X11. [PATCH /rooms/i] on a room on record replaces the name and the
    description of that room alone: the other rooms and the number of rooms
    stay, and the images of the room stay unless files are uploaded with the
    request. When the name or the description is absent or does not parse as
    JSON, the answer is 500 and nothing is saved; without a room at [i] the
    answer is 404. *)
Theorem patch_room_replaces_one (villa : Villa) (i : nat)
    (name description : option string) (files : list string) :
  let out := patch_room schema_ok CLIENT_URL JSON_parse i name description
                        files (Some villa) in
  (∀ room n d,
     rooms villa !! i = Some room →
     parse_field JSON_parse name = Some n →
     parse_field JSON_parse description = Some d →
     let kept := if bool_decide (files = []) then images room
                 else map (room_url CLIENT_URL) files in
     let saved := set_rooms (<[i := mkRoom n d kept]> (rooms villa)) villa in
     schema_ok saved = true →
     out = (mkResponse 200 (Some "Room updated successfully") (VillaDoc saved),
            Some saved)
     ∧ rooms saved !! i = Some (mkRoom n d kept)
     ∧ length (rooms saved) = length (rooms villa)
     ∧ (∀ j, j ≠ i → rooms saved !! j = rooms villa !! j))
  ∧ (is_Some (rooms villa !! i) →
     parse_field JSON_parse name = None
     ∨ parse_field JSON_parse description = None →
     out = (fail 500 "Error updating room", Some villa))
  ∧ (rooms villa !! i = None → out = (fail 404 "Room not found", Some villa)).
Proof.
  intros out. subst out. split; [|split].
  - intros room n d Hroom Hn Hd kept saved Hsave.
    unfold patch_room, patch_room_body. step_handler.
    rewrite Hroom, Hn, Hd. simpl. unfold saved, kept in Hsave.
    rewrite Hsave.
    split; [done|]. simpl.
    split; [apply list_lookup_insert_eq; by eapply lookup_lt_Some|].
    split; [apply length_insert|].
    intros j Hj. by apply list_lookup_insert_ne.
  - intros [room Hroom] Hbad.
    unfold patch_room, patch_room_body. step_handler. rewrite Hroom.
    destruct (parse_field JSON_parse name); simpl; [|done].
    destruct Hbad as [?| ->]; done.
  - intros Hroom. unfold patch_room, patch_room_body. step_handler.
    by rewrite Hroom.
Qed.

(** *** The texts and numbers of [PATCH /] *)

Lemma Villa_eq (v w : Villa) :
  name v = name w → title v = title w → description v = description w →
  beachfront v = beachfront w → pricePerNight v = pricePerNight w →
  discountedPrice v = discountedPrice w →
  priceReductionPerRoom v = priceReductionPerRoom w →
  maxGuests v = maxGuests w → bedrooms v = bedrooms w →
  minRooms v = minRooms w → bathrooms v = bathrooms w →
  backgroundImage v = backgroundImage w → slideImages v = slideImages w →
  rooms v = rooms w → bankDetails v = bankDetails w →
  promptPay v = promptPay w → v = w.
Proof. destruct v, w. simpl. by intros; subst. Qed.

Lemma assigned_texts (b : villa_body) (v : Villa) :
  name (assigned b v) = (if texts_given b then b_name b else name v)
  ∧ title (assigned b v) = (if texts_given b then b_title b else title v)
  ∧ description (assigned b v)
    = (if texts_given b then b_description b else description v).
Proof.
  repeat split; skip_layers; unfold assign_texts; by destruct (texts_given b).
Qed.

Lemma assigned_beachfront (b : villa_body) (v : Villa) :
  beachfront (assigned b v)
  = (if truthy (b_beachfront b)
     then mkBilingual
            (or_else (get_opt (b_beachfront b) "en") (en (beachfront v)))
            (or_else (get_opt (b_beachfront b) "th") (th (beachfront v)))
     else beachfront v).
Proof.
  skip_layers. unfold assign_beachfront.
  destruct (truthy (b_beachfront b)); simpl; by skip_layer assign_texts.
Qed.

Lemma assigned_numbers (b : villa_body) (v : Villa) :
  pricePerNight (assigned b v)
    = (if b_pricePerNight b is Some _ then b_pricePerNight b
       else pricePerNight v)
  ∧ discountedPrice (assigned b v)
    = (if b_discountedPrice b is Some _ then b_discountedPrice b
       else discountedPrice v)
  ∧ priceReductionPerRoom (assigned b v)
    = (if b_priceReductionPerRoom b is Some _ then b_priceReductionPerRoom b
       else priceReductionPerRoom v)
  ∧ maxGuests (assigned b v)
    = (if b_maxGuests b is Some _ then b_maxGuests b else maxGuests v)
  ∧ bedrooms (assigned b v)
    = (if b_bedrooms b is Some _ then b_bedrooms b else bedrooms v)
  ∧ minRooms (assigned b v)
    = (if b_minRooms b is Some _ then b_minRooms b else minRooms v)
  ∧ bathrooms (assigned b v)
    = (if b_bathrooms b is Some _ then b_bathrooms b else bathrooms v).
Proof.
  repeat split; skip_layers.
  - unfold assign_pricePerNight. destruct (b_pricePerNight b); simpl;
      by skip_layers.
  - unfold assign_discountedPrice. destruct (b_discountedPrice b); simpl;
      by skip_layers.
  - unfold assign_priceReductionPerRoom.
    destruct (b_priceReductionPerRoom b); simpl; by skip_layers.
  - unfold assign_maxGuests. destruct (b_maxGuests b); simpl; by skip_layers.
  - unfold assign_bedrooms. destruct (b_bedrooms b); simpl; by skip_layers.
  - unfold assign_minRooms. destruct (b_minRooms b); simpl; by skip_layers.
  - unfold assign_bathrooms. destruct (b_bathrooms b); simpl; by skip_layers.
Qed.

Lemma assigned_payment (b : villa_body) (v : Villa) :
  bankDetails (assigned b v)
    = match b_bankDetails b with
      | JUndefined => bankDetails v
      | given => given
      end
  ∧ promptPay (assigned b v)
    = (if b_promptPay b is Some given then given else promptPay v).
Proof.
  split; skip_layers.
  - unfold assign_bankDetails. destruct (b_bankDetails b); simpl;
      by skip_layers.
  - unfold assign_promptPay. destruct (b_promptPay b); simpl; by skip_layers.
Qed.

Lemma or_else_twice (x y : jsval) : or_else x (or_else x y) = or_else x y.
Proof. unfold or_else. by destruct (truthy x). Qed.

Lemma assigned_twice (b : villa_body) (v : Villa) :
  assigned b (assigned b v) = assigned b v.
Proof.
  destruct (assigned_texts b (assigned b v)) as (Hn & Ht & Hd).
  destruct (assigned_texts b v) as (Hn' & Ht' & Hd').
  destruct (assigned_numbers b (assigned b v))
    as (H1 & H2 & H3 & H4 & H5 & H6 & H7).
  destruct (assigned_numbers b v) as (H1' & H2' & H3' & H4' & H5' & H6' & H7').
  destruct (assigned_payment b (assigned b v)) as (Hb & Hp).
  destruct (assigned_payment b v) as (Hb' & Hp').
  destruct (assigned_media b (assigned b v)) as (Hi & Hs & Hr).
  apply Villa_eq.
  - rewrite Hn, Hn'. by destruct (texts_given b).
  - rewrite Ht, Ht'. by destruct (texts_given b).
  - rewrite Hd, Hd'. by destruct (texts_given b).
  - rewrite (assigned_beachfront b (assigned b v)), (assigned_beachfront b v).
    destruct (truthy (b_beachfront b)); [|done]. simpl.
    by rewrite !or_else_twice.
  - rewrite H1, H1'. by destruct (b_pricePerNight b).
  - rewrite H2, H2'. by destruct (b_discountedPrice b).
  - rewrite H3, H3'. by destruct (b_priceReductionPerRoom b).
  - rewrite H4, H4'. by destruct (b_maxGuests b).
  - rewrite H5, H5'. by destruct (b_bedrooms b).
  - rewrite H6, H6'. by destruct (b_minRooms b).
  - rewrite H7, H7'. by destruct (b_bathrooms b).
  - done.
  - done.
  - done.
  - rewrite Hb, Hb'. by destruct (b_bankDetails b).
  - rewrite Hp, Hp'. by destruct (b_promptPay b).
Qed.

(** X12. [PATCH /] is idempotent: sending the same body a second time is
    answered as the first time and leaves the collection as the first
    request left it. *)
Theorem patch_villa_idempotent (b : villa_body) (db : option Villa) :
  patch_villa newVilla schema_ok b
    (patch_villa newVilla schema_ok b db).2
  = patch_villa newVilla schema_ok b db.
Proof.
  rewrite (VillaRouterProofs.patch_villa_cases newVilla schema_ok b db).
  destruct (discount_rejected b) eqn:Hdiscount; simpl.
  { rewrite VillaRouterProofs.patch_villa_cases. by rewrite Hdiscount. }
  destruct (rooms_rejected b) eqn:Hrooms; simpl.
  { rewrite VillaRouterProofs.patch_villa_cases. by rewrite Hdiscount, Hrooms. }
  destruct (schema_ok (assigned b (default newVilla db))) eqn:Hsave; simpl.
  - rewrite VillaRouterProofs.patch_villa_cases. rewrite Hdiscount, Hrooms.
    simpl. rewrite assigned_twice. by rewrite Hsave.
  - rewrite VillaRouterProofs.patch_villa_cases. rewrite Hdiscount, Hrooms.
    simpl. by rewrite Hsave.
Qed.

(** X13. [PATCH /] takes the name, the title and the description together
    or not at all: when one of their six texts is absent or empty the three
    stored blocks stay as they are, and when all six are given the three are
    replaced. The beachfront text is merged by language: for English and
    for Thai alike, a language the request leaves absent or empty keeps its
    stored text whatever the other language carries, and a language the
    request gives takes the text of the request. The answer is 200 either
    way (the two checks passing and the save succeeding). *)
Theorem texts_saved_together_or_not (b : villa_body) (db : option Villa) :
  discount_rejected b = false →
  rooms_rejected b = false →
  let old := default newVilla db in
  let doc := assigned b old in
  schema_ok doc = true →
  patch_villa newVilla schema_ok b db
    = (mkResponse 200 None (VillaDoc doc), Some doc)
  ∧ (truthy (get_opt (b_name b) "en") = false
     ∨ truthy (get_opt (b_name b) "th") = false
     ∨ truthy (get_opt (b_title b) "en") = false
     ∨ truthy (get_opt (b_title b) "th") = false
     ∨ truthy (get_opt (b_description b) "en") = false
     ∨ truthy (get_opt (b_description b) "th") = false →
     name doc = name old ∧ title doc = title old
     ∧ description doc = description old)
  ∧ (truthy (get_opt (b_name b) "en") = true
     ∧ truthy (get_opt (b_name b) "th") = true
     ∧ truthy (get_opt (b_title b) "en") = true
     ∧ truthy (get_opt (b_title b) "th") = true
     ∧ truthy (get_opt (b_description b) "en") = true
     ∧ truthy (get_opt (b_description b) "th") = true →
     name doc = b_name b ∧ title doc = b_title b
     ∧ description doc = b_description b)
  ∧ (truthy (b_beachfront b) = true →
     (truthy (get_opt (b_beachfront b) "en") = false →
      en (beachfront doc) = en (beachfront old))
     ∧ (truthy (get_opt (b_beachfront b) "en") = true →
        en (beachfront doc) = get_opt (b_beachfront b) "en")
     ∧ (truthy (get_opt (b_beachfront b) "th") = false →
        th (beachfront doc) = th (beachfront old))
     ∧ (truthy (get_opt (b_beachfront b) "th") = true →
        th (beachfront doc) = get_opt (b_beachfront b) "th")
     ∧ en (beachfront doc)
       = or_else (get_opt (b_beachfront b) "en") (en (beachfront old))
     ∧ th (beachfront doc)
       = or_else (get_opt (b_beachfront b) "th") (th (beachfront old)))
  ∧ (truthy (b_beachfront b) = false → beachfront doc = beachfront old).
Proof.
  intros Hdiscount Hrooms old doc Hsave.
  destruct (assigned_texts b old) as (Hn & Ht & Hd).
  pose proof (assigned_beachfront b old) as Hbeach.
  fold doc in Hn, Ht, Hd, Hbeach.
  split; [|split; [|split; [|split]]].
  - rewrite VillaRouterProofs.patch_villa_cases, Hdiscount, Hrooms. simpl.
    fold old. fold doc. by rewrite Hsave.
  - intros Hmissing.
    assert (texts_given b = false) as Hnone.
    { unfold texts_given.
      destruct Hmissing as [->|[->|[->|[->|[->| ->]]]]];
        by rewrite ?andb_false_r. }
    by rewrite Hn, Ht, Hd, Hnone.
  - intros (H1 & H2 & H3 & H4 & H5 & H6).
    assert (texts_given b = true) as Hall.
    { unfold texts_given. by rewrite H1, H2, H3, H4, H5, H6. }
    by rewrite Hn, Ht, Hd, Hall.
  - intros Hgiven. rewrite Hbeach, Hgiven. simpl. unfold or_else.
    repeat split; by intros ->.
  - intros Hgiven. by rewrite Hbeach, Hgiven.
Qed.

(** *** Answers and the stored villa *)

Lemma validate_banks_reply (banks : list jsval) (db : option Villa)
    (refusal : response) :
  (validate_banks banks db).1 = Reply refusal → status refusal = 400%nat.
Proof.
  induction banks as [|bank rest IH]; [done|].
  simpl. step_handler.
  destruct (lacks_field bank) as [[]|]; simpl; try done.
  by intros [= <-].
Qed.

(** X20. After a request that is answered 200 the collection holds a villa,
    and what the answer carries is what is stored: a villa in the answer is
    the stored villa, a list of bank details or of slides in the answer is
    the stored list, and [GET /] then answers the stored villa. *)
Theorem answer_carries_stored_villa (r : request) (db : option Villa) :
  let out := route newVilla schema_ok CLIENT_URL JSON_parse r db in
  status out.1 = 200%nat →
  ∃ v', out.2 = Some v'
    ∧ (∀ v, data out.1 = VillaDoc v → v = v')
    ∧ (∀ l, data out.1 = BankList l → l = bankDetails v')
    ∧ (∀ l, data out.1 = SlideList l → l = slideImages v')
    ∧ get_villa newVilla schema_ok out.2
      = (mkResponse 200 None (VillaDoc v'), Some v').
Proof.
  intros out Hok. subst out.
  assert (∀ v', get_villa newVilla schema_ok (Some v')
                = (mkResponse 200 None (VillaDoc v'), Some v')) as Hget by done.
  destruct r; simpl in *.
  3: { rewrite VillaRouterProofs.patch_villa_cases in *.
       repeat (case_match; simpl in *; simplify_eq); try lia.
       eexists. split; [done|]. repeat split; intros; by simplify_eq. }
  2: { unfold patch_bank_details, patch_bank_details_body in *.
       step_handler.
       destruct (get body "bankDetails") as [given|]; simpl in *; [|lia].
       destruct given; simpl in *; try lia.
       pose proof (VillaRouterProofs.validate_banks_store xs db) as Hdb.
       pose proof (validate_banks_reply xs db) as Hreply.
       destruct (validate_banks xs db) as [[[]|refusal|] db']; simpl in *;
         subst; try lia.
       - destruct (mapM format_bank xs); simpl in *; [|lia].
         destruct (schema_ok _); simpl in *; [|lia].
         eexists. split; [done|]. repeat split; intros; by simplify_eq.
       - specialize (Hreply refusal eq_refl). lia. }
  all: open_routes; step_handler;
    repeat (case_match; simpl in *; simplify_eq); try lia;
    eexists; (split; [done|]); repeat split; intros; by simplify_eq.
Qed.

(** X21. An index of [newOrder] that is negative or beyond the slides
    leaves an empty entry in the saved sequence, and [DELETE /slides/i] for
    the position [i] of that entry is answered 404: the entry cannot be
    deleted by its index. *)
Theorem reorder_hole_cannot_be_deleted (villa : Villa) (order : list Z)
    (i : nat) (z : Z) :
  let slides := slideImages villa in
  let reordered := map (λ z, index slides z) order in
  order !! i = Some z →
  z < 0 ∨ Z.of_nat (length slides) ≤ z →
  schema_ok (set_slideImages reordered villa) = true →
  let saved := (patch_slides_reorder schema_ok (Some order) (Some villa)).2 in
  saved = Some (set_slideImages reordered villa)
  ∧ reordered !! i = Some None
  ∧ delete_slide schema_ok i saved = (fail 404 "Slide image not found", saved).
Proof.
  intros slides reordered Hz Hout Hsave saved.
  assert (saved = Some (set_slideImages reordered villa)) as ->.
  { subst saved. unfold patch_slides_reorder, patch_slides_reorder_body.
    step_handler. fold slides. fold reordered. by rewrite Hsave. }
  assert (reordered !! i = Some None) as Hhole.
  { subst reordered. rewrite list_lookup_fmap, Hz. simpl.
    by rewrite VillaRouterProofs.index_out_of_range. }
  split; [done|]. split; [done|].
  unfold delete_slide, delete_slide_body. step_handler. by rewrite Hhole.
Qed.

Lemma index_of_reordered (slides : list (option string)) (first : list Z)
    (j : Z) :
  index (map (λ z, index slides z) first) j
  = index slides
      (if j <? 0 then -1 else default (-1) (first !! Z.to_nat j)).
Proof.
  unfold index at 1. destruct (j <? 0) eqn:Hj; [done|].
  rewrite list_lookup_fmap.
  destruct (first !! Z.to_nat j) as [z|]; simpl; done.
Qed.

(** X22. Two reorderings in a row amount to one: reordering by [first] and
    then by [second] saves the same slide sequence as reordering once by the
    order that reads [first] at the positions of [second] (all saves
    succeeding). *)
Theorem reorder_twice_is_once (villa : Villa) (first second : list Z) :
  let slides := slideImages villa in
  let once := map (λ z, index slides z) first in
  let twice := map (λ z, index once z) second in
  schema_ok (set_slideImages once villa) = true →
  schema_ok (set_slideImages twice (set_slideImages once villa)) = true →
  schema_ok (set_slideImages
               (map (λ z, index slides z) (composed_order first second))
               villa) = true →
  slideImages
    <$> (patch_slides_reorder schema_ok (Some second)
           (patch_slides_reorder schema_ok (Some first) (Some villa)).2).2
  = slideImages
      <$> (patch_slides_reorder schema_ok
             (Some (composed_order first second)) (Some villa)).2.
Proof.
  intros slides once twice Honce Htwice Hcomposed.
  unfold patch_slides_reorder, patch_slides_reorder_body. step_handler.
  fold slides. fold once. rewrite Honce. simpl.
  fold twice. rewrite Htwice. simpl. rewrite Hcomposed. simpl.
  f_equal. subst twice. unfold composed_order. rewrite List.map_map.
  apply List.map_ext. intros j. apply index_of_reordered.
Qed.

(** *** Saving the stored bank details again *)

Lemma trimStart_fixed (s : string) :
  starts_with_space s = false → trimStart s = s.
Proof. destruct s as [|a rest]; [done|]. simpl. by intros ->. Qed.

Lemma trimEnd_fixed (s : string) :
  ends_with_space s = false → trimEnd s = s.
Proof.
  induction s as [|a rest IH]; [done|].
  simpl. destruct rest as [|c rest'].
  - simpl. by intros ->.
  - intros Hend. rewrite IH by done. done.
Qed.

Lemma trim_fixed (s : string) :
  starts_with_space s = false → ends_with_space s = false → trim s = s.
Proof.
  intros Hstart Hend. unfold trim.
  by rewrite trimStart_fixed, trimEnd_fixed.
Qed.

Lemma no_space_ends (s : string) :
  has_space s = false →
  starts_with_space s = false ∧ ends_with_space s = false.
Proof.
  induction s as [|a rest IH]; [done|].
  simpl. intros [Ha Hrest]%orb_false_iff. split; [done|].
  destruct rest; [done|]. by apply IH.
Qed.

Lemma dash_runs_fixed (s : string) :
  has_space s = false → dash_runs false s = s.
Proof.
  induction s as [|a rest IH]; [done|].
  simpl. intros [Ha Hrest]%orb_false_iff. rewrite Ha. by rewrite IH.
Qed.

Lemma format_bank_normal (bank e : jsval) :
  format_bank bank = Some e → normal_entry e.
Proof.
  unfold format_bank, call_trim.
  destruct (get bank "bank") as [[]|]; try done.
  destruct (get bank "accountNumber") as [[]|]; try done.
  destruct (get bank "accountName") as [[]|]; try done.
  simpl. intros [= <-].
  eexists _, _, _. split; [done|].
  destruct (trim_shape s), (trim_shape s1).
  repeat split; try done. apply dash_runs_no_space.
Qed.

Lemma format_bank_fixed (e : jsval) :
  normal_entry e →
  format_bank e = Some e ∧ is_Some (lacks_field e).
Proof.
  intros (b & n & a & -> & Hb1 & Hb2 & Hn & Ha1 & Ha2).
  split; [|by eexists].
  unfold format_bank. simpl.
  destruct (no_space_ends n Hn) as [Hn1 Hn2].
  rewrite !trim_fixed by done.
  unfold replace_spaces. by rewrite dash_runs_fixed.
Qed.

Lemma validate_normal (stored : list jsval) (db : option Villa) :
  Forall normal_entry stored →
  (validate_banks stored db).1 = Next ()
  ∨ ∃ refusal, (validate_banks stored db).1 = Reply refusal.
Proof.
  induction 1 as [|e rest He _ IH]; [by left|].
  simpl. step_handler.
  destruct (format_bank_fixed e He) as [_ [[] ->]]; simpl; eauto.
Qed.

(** X23. The bank details that [PATCH /bank-details] has stored are in the
    form it stores them: sending the stored list back to
    [PATCH /bank-details] leaves the stored villa as it is, whatever the
    answer. *)
Theorem stored_bank_details_save_unchanged (body : jsval)
    (db : option Villa) (stored : jsval) (v' : Villa) :
  patch_bank_details newVilla schema_ok body db
    = (mkResponse 200 (Some "Bank details updated successfully")
         (BankList stored), Some v') →
  bankDetails v' = stored
  ∧ (patch_bank_details newVilla schema_ok
       (JObj [("bankDetails", stored)]) (Some v')).2 = Some v'.
Proof.
  unfold patch_bank_details at 1, patch_bank_details_body at 1.
  step_handler.
  destruct (get body "bankDetails") as [given|]; simpl; [|done].
  destruct given; simpl; try done.
  pose proof (VillaRouterProofs.validate_banks_store xs db) as Hdb.
  pose proof (validate_banks_reply xs db) as Hreply.
  destruct (validate_banks xs db) as [[[]|refusal|] db'] eqn:Hvalidated;
    simpl in *; subst; [|intros [= -> _]; specialize (Hreply _ eq_refl);
                         simpl in Hreply; lia
                        |done].
  destruct (mapM format_bank xs) as [formatted|] eqn:Hformatted; simpl;
    [|done].
  destruct (schema_ok _) eqn:Hsave; simpl; [|done].
  intros [= <- <-]. split; [done|].
  assert (Forall normal_entry formatted) as Hnormal.
  { apply mapM_Some_1 in Hformatted.
    apply Forall_forall. intros e He.
    apply list_elem_of_lookup in He as [i He].
    destruct (Forall2_lookup_r _ _ _ _ _ Hformatted He) as (bank & _ & Hbank).
    by apply format_bank_normal with bank. }
  unfold patch_bank_details, patch_bank_details_body. step_handler.
  set (doc := set_bankDetails (JArr formatted) (default newVilla db)) in *.
  pose proof (VillaRouterProofs.validate_banks_store formatted (Some doc))
    as Hkept.
  destruct (validate_normal formatted (Some doc) Hnormal)
    as [Hpass|[refusal Hrefused]].
  - destruct (validate_banks formatted (Some doc)) as [o db1]; simpl in *.
    subst. simpl.
    assert (mapM format_bank formatted = Some formatted) as ->.
    { apply mapM_Some_2. apply Forall_Forall2_diag.
      eapply Forall_impl; [exact Hnormal|].
      intros e He. by apply format_bank_fixed. }
    simpl. replace (set_bankDetails (JArr formatted) doc) with doc by done.
    by rewrite Hsave.
  - destruct (validate_banks formatted (Some doc)) as [o db1]; simpl in *.
    by subst.
Qed.

End Proofs.

Import Samples MoreSamples.

(** X1 on a slide index beyond the five slides. *)
Lemma errors_never_write_witness :
  (route blank lenient client_url tiny_parse (DeleteSlide 7) (Some gallery)).2
  = Some gallery.
Proof.
  apply (errors_never_write blank lenient client_url tiny_parse).
  vm_compute. lia.
Defined.

(** X2 on a deletion of a room in an empty collection. *)
Lemma villa_created_only_by_three_routes_witness :
  (route blank lenient client_url tiny_parse (DeleteRoom 0) None).2 = None
  ∧ (status (route blank lenient client_url tiny_parse (DeleteRoom 0) None).1
       = 404%nat
     ∨ status (route blank lenient client_url tiny_parse (DeleteRoom 0) None).1
       = 400%nat).
Proof.
  apply (villa_created_only_by_three_routes blank lenient client_url
           tiny_parse (DeleteRoom 0)).
  reflexivity.
Defined.

(** X4 on a complete entry followed by one with empty texts. *)
Lemma bank_details_first_bad_entry_witness :
  patch_bank_details blank lenient
    (JObj [("bankDetails", JArr [full_bank; empty_bank])]) (Some paradise)
  = (fail 400 "Each bank detail must include bank name, account number, and account name",
     Some paradise).
Proof.
  assert (Forall (λ bank, lacks_field bank = Some false) [full_bank])
    as Hgood.
  { constructor; [reflexivity | constructor]. }
  apply (bank_details_first_bad_entry blank lenient (Some paradise)
           [full_bank] [] empty_bank Hgood).
  reflexivity.
Defined.

(** X5 on one complete entry of ASCII texts with white space around and
    inside them. *)
Lemma bank_details_stored_normalised_witness :
  patch_bank_details blank lenient
    (JObj [("bankDetails", JArr [full_bank])]) (Some paradise)
  = (mkResponse 200 (Some "Bank details updated successfully")
       (BankList
          (JArr [JObj [("bank", JStr "Kasikorn");
                       ("accountNumber", JStr "123-456-789");
                       ("accountName", JStr "Villa Paradise")]])),
     Some (set_bankDetails
             (JArr [JObj [("bank", JStr "Kasikorn");
                          ("accountNumber", JStr "123-456-789");
                          ("accountName", JStr "Villa Paradise")]])
             paradise)).
Proof.
  assert (Forall (λ bank, ∃ b n a, bank_texts bank = Some (b, n, a)
                           ∧ str_truthy b = true ∧ str_truthy n = true
                           ∧ str_truthy a = true
                           ∧ ascii_text b = true ∧ ascii_text n = true
                           ∧ ascii_text a = true) [full_bank]) as Hfull.
  { constructor; [|constructor].
    exists " Kasikorn ", "123 456  789", "Villa Paradise".
    repeat split. }
  destruct (bank_details_stored_normalised blank lenient (Some paradise)
              [full_bank] Hfull) as (stored & Hstored & _ & Hsaved & _).
  injection Hstored as <-. apply Hsaved. reflexivity.
Defined.

(** X6 on two uploaded files. *)
Lemma uploaded_slides_replace_and_can_be_deleted_witness :
  (post_slides lenient client_url ["a.jpg"; "b.jpg"] (Some gallery)).2
  = Some (set_slideImages
            [Some "https://villa.example/uploads/villa/a.jpg";
             Some "https://villa.example/uploads/villa/b.jpg"] gallery).
Proof.
  assert (["a.jpg"; "b.jpg"] ≠ ([] : list string)) as Hfiles by discriminate.
  destruct (uploaded_slides_replace_and_can_be_deleted lenient client_url
              ["a.jpg"; "b.jpg"] gallery Hfiles eq_refl) as [-> _].
  reflexivity.
Defined.

(** X7 on the five slides in reverse order. *)
Lemma reorder_by_permutation_witness :
  (patch_slides_reorder lenient (Some [4; 3; 2; 1; 0]) (Some gallery)).2
  = Some (set_slideImages (reverse five_slides) gallery).
Proof.
  assert ([4; 3; 2; 1; 0]
          ≡ₚ Z.of_nat <$> seq 0 (length (slideImages gallery))) as Hperm.
  { symmetry. apply (Permutation_rev [0; 1; 2; 3; 4]). }
  destruct (reorder_by_permutation lenient gallery [4; 3; 2; 1; 0]
              Hperm eq_refl) as [-> _].
  reflexivity.
Defined.

(** X8 on the villa with a background image. *)
Lemma background_deleted_once_witness :
  delete_background lenient (Some with_background)
  = (mkResponse 200 (Some "Background image deleted successfully") NoData,
     Some paradise)
  ∧ delete_background lenient (Some paradise)
    = (fail 404 "Background image not found", Some paradise).
Proof.
  destruct (background_deleted_once lenient with_background) as [Hfirst _].
  apply Hfirst; reflexivity.
Defined.

(** X9 on the default villa, which has no PromptPay code. *)
Lemma promptpay_offer_follows_qr_witness :
  delete_promptpay_qr lenient (Some paradise)
  = (fail 404 "QR code not found", Some paradise).
Proof.
  apply (promptpay_offer_follows_qr lenient client_url (Some paradise)).
  reflexivity.
Defined.

(** X10 on a room added to the default villa and deleted again. *)
Lemma room_added_then_deleted_witness :
  (post_room lenient client_url tiny_parse (Some "null") (Some "true")
             ["sea.jpg"] (Some paradise)).2
  = Some (set_rooms
            [mkRoom JNull (JBool true)
                    ["https://villa.example/uploads/rooms/sea.jpg"]]
            paradise)
  ∧ (delete_room lenient 0
       (Some (set_rooms
                [mkRoom JNull (JBool true)
                        ["https://villa.example/uploads/rooms/sea.jpg"]]
                paradise))).2
    = Some paradise.
Proof.
  destruct (room_added_then_deleted lenient client_url tiny_parse paradise
              "null" "true" ["sea.jpg"] JNull (JBool true)
              eq_refl eq_refl eq_refl eq_refl)
    as (Hadd & _ & _ & Hdelete).
  split.
  - rewrite Hadd. reflexivity.
  - exact (f_equal snd Hdelete).
Defined.

(** X11 on the room of [roomy], renamed without new files, and on a name
    that does not parse. *)
Lemma patch_room_replaces_one_witness :
  (patch_room lenient client_url tiny_parse 0 (Some "null") (Some "true") []
              (Some roomy)).2
  = Some (set_rooms [mkRoom JNull (JBool true) (images sea_room)] roomy)
  ∧ patch_room lenient client_url tiny_parse 0 (Some "{") (Some "true")
               ["new.jpg"] (Some roomy)
    = (fail 500 "Error updating room", Some roomy).
Proof.
  destruct (patch_room_replaces_one lenient client_url tiny_parse roomy 0
              (Some "null") (Some "true") []) as (Hok & _ & _).
  destruct (Hok sea_room JNull (JBool true) eq_refl eq_refl eq_refl eq_refl)
    as (Hsaved & _).
  split.
  - rewrite Hsaved. reflexivity.
  - apply (patch_room_replaces_one lenient client_url tiny_parse roomy 0
             (Some "{") (Some "true") ["new.jpg"]).
    + by exists sea_room.
    + by left.
Defined.

(** X20 on an accepted update of the default villa. *)
Lemma answer_carries_stored_villa_witness :
  ∃ v', (route blank lenient client_url tiny_parse (PatchVilla fair_update)
           (Some paradise)).2 = Some v'
        ∧ get_villa blank lenient
            (route blank lenient client_url tiny_parse (PatchVilla fair_update)
               (Some paradise)).2
          = (mkResponse 200 None (VillaDoc v'), Some v').
Proof.
  destruct (answer_carries_stored_villa blank lenient client_url tiny_parse
              (PatchVilla fair_update) (Some paradise) eq_refl)
    as (v' & Hstored & _ & _ & _ & Hget).
  exists v'. split; [exact Hstored | exact Hget].
Defined.

(** X21 on an order whose second index is beyond the five slides. *)
Lemma reorder_hole_cannot_be_deleted_witness :
  delete_slide lenient 1
    (patch_slides_reorder lenient (Some [0; 9]) (Some gallery)).2
  = (fail 404 "Slide image not found",
     (patch_slides_reorder lenient (Some [0; 9]) (Some gallery)).2).
Proof.
  apply (reorder_hole_cannot_be_deleted lenient gallery [0; 9] 1 9);
    [reflexivity | right; simpl; lia | reflexivity].
Defined.

(** X22 on the reverse order followed by an order that repeats a
    position. *)
Lemma reorder_twice_is_once_witness :
  slideImages
    <$> (patch_slides_reorder lenient (Some [0; 0; 4])
           (patch_slides_reorder lenient (Some [4; 3; 2; 1; 0])
              (Some gallery)).2).2
  = slideImages
      <$> (patch_slides_reorder lenient (Some [4; 4; 0]) (Some gallery)).2.
Proof.
  apply (reorder_twice_is_once lenient gallery [4; 3; 2; 1; 0] [0; 0; 4]);
    reflexivity.
Defined.

(** X23 on the entry stored from [full_bank]. *)
Lemma stored_bank_details_save_unchanged_witness :
  let stored := JArr [JObj [("bank", JStr "Kasikorn");
                            ("accountNumber", JStr "123-456-789");
                            ("accountName", JStr "Villa Paradise")]] in
  (patch_bank_details blank lenient (JObj [("bankDetails", stored)])
     (Some (set_bankDetails stored paradise))).2
  = Some (set_bankDetails stored paradise).
Proof.
  intros stored.
  apply (stored_bank_details_save_unchanged blank lenient
           (JObj [("bankDetails", JArr [full_bank])]) (Some paradise) stored
           (set_bankDetails stored paradise)).
  reflexivity.
Defined.

(** X13 on a request without Thai name: the stored name stays, the English
    beachfront text is replaced and the Thai one stays; and on a request with
    a Thai beachfront text and an empty English one: the Thai text is
    replaced and the English one stays. *)
Lemma texts_saved_together_or_not_witness :
  (name (assigned partial_texts paradise) = name paradise
   ∧ th (beachfront (assigned partial_texts paradise))
     = th (beachfront paradise)
   ∧ en (beachfront (assigned partial_texts paradise)) = JStr "On the beach")
  ∧ (en (beachfront (assigned thai_beachfront paradise))
     = en (beachfront paradise)
     ∧ th (beachfront (assigned thai_beachfront paradise)) = JStr "Rim Talay").
Proof.
  destruct (texts_saved_together_or_not blank lenient partial_texts
              (Some paradise) eq_refl eq_refl eq_refl)
    as (_ & Hpartial & _ & Hbeach & _).
  destruct (texts_saved_together_or_not blank lenient thai_beachfront
              (Some paradise) eq_refl eq_refl eq_refl)
    as (_ & _ & _ & Hthai & _).
  destruct Hpartial as (Hname & _); [right; left; reflexivity|].
  destruct Hbeach as (_ & Hen & Hth & _); [reflexivity|].
  destruct Hthai as (Hen' & _ & _ & Hth' & _); [reflexivity|].
  split.
  - split; [exact Hname|]. split; [exact (Hth eq_refl)|].
    etrans; [exact (Hen eq_refl) | reflexivity].
  - split; [exact (Hen' eq_refl)|].
    etrans; [exact (Hth' eq_refl) | reflexivity].
Defined.

End VillaRouterExtras.

(* ===================================================================== *)
(** ** Further properties of the payment page *)
(* ===================================================================== *)

Module PaymentPageExtras.

Import PaymentPage.

Section Proofs.

Variable is_image : string → bool.
Variable sizeCeiling : Z.
Variable storedUrl : File → string.
Variable createObjectURL : File → string.

(** The guards of the page: once the payment is marked confirmed, a file
    selection and a confirmation do nothing. *)
Lemma confirmed_page_is_locked (p : page) :
  isPaymentConfirmed p = true →
  (∀ file, handleFileSelect createObjectURL file p = p)
  ∧ (∀ now bid s,
       handleConfirmPayment is_image sizeCeiling storedUrl now bid p s
       = (p, s, [])).
Proof.
  intros Hlocked. split.
  - intros file. unfold handleFileSelect. by rewrite Hlocked.
  - intros now bid s. unfold handleConfirmPayment. rewrite Hlocked.
    by destruct (selectedFile p).
Qed.

(** X14. When the server answers [fetchBooking] with a booking that holds a
    non-empty [paymentSlipUrl], the page stores the booking, shows that slip,
    stops loading and marks the payment confirmed; from then on selecting a
    file changes nothing, and [handleConfirmPayment] changes nothing, sends
    nothing and shows nothing. *)
Theorem slip_on_record_locks_the_page (now : Z) (bid : string) (p : page)
    (s s' : Booking.store) (b : Booking.Booking) (url : string) :
  Booking.getBooking now bid s = (Booking.Ok b, s') →
  Booking.paymentSlipUrl b = Some url →
  str_truthy url = true →
  let w := fetchBooking now (Some bid) p s in
  w.1.2 = s' ∧ w.2 = []
  ∧ booking w.1.1 = Some b
  ∧ paymentSlipUrl w.1.1 = url
  ∧ isPaymentConfirmed w.1.1 = true
  ∧ isLoading w.1.1 = false
  ∧ (∀ file, handleFileSelect createObjectURL file w.1.1 = w.1.1)
  ∧ (∀ now2 s2,
       handleConfirmPayment is_image sizeCeiling storedUrl now2 bid w.1.1 s2
       = (w.1.1, s2, [])).
Proof.
  intros Hget Hslip Hurl w.
  assert (w = (setIsLoading false
                 (setIsPaymentConfirmed true
                    (setPaymentSlipUrl url (setBooking (Some b) p))),
               s', [])) as ->.
  { subst w. unfold fetchBooking. rewrite Hget, Hslip. simpl.
    by rewrite Hurl. }
  simpl. repeat split; try done; intros; by apply confirmed_page_is_locked.
Qed.

(** X15. When a file is selected, the payment is not yet marked confirmed
    and the upload of the slip succeeds, [handleConfirmPayment] marks the
    payment confirmed and shows the uploaded slip before it sends the booking
    update, and whatever the server answers to the update: on a refusal the
    page shows the error toast, yet stays marked confirmed, so that a second
    [handleConfirmPayment] does nothing. Loading is switched off at the
    end. *)
Theorem upload_marks_the_page_confirmed (now : Z) (bid : string) (p : page)
    (s : Booking.store) (file : File) (url : string) :
  selectedFile p = Some file →
  isPaymentConfirmed p = false →
  uploadSlip is_image sizeCeiling storedUrl file = Booking.Ok url →
  let sent := Booking.updateBooking now bid
                (Booking.mkUpdate None (Some Booking.pending)
                   (Some (Booking.mkPayment (Some (selectedMethod p)) url
                            Booking.pending))) s in
  let w := handleConfirmPayment is_image sizeCeiling storedUrl now bid p s in
  w.1.2 = sent.2
  ∧ isPaymentConfirmed w.1.1 = true
  ∧ paymentSlipUrl w.1.1 = url
  ∧ isLoading w.1.1 = false
  ∧ w.2 = (match sent.1 with
           | Booking.Ok _ =>
               [ToastSuccess "payment.success.confirmed";
                Navigate ("/booking/" +:+ bid +:+ "/confirmation")]
           | Booking.Err _ => [ToastError "payment.errors.confirmFailed"]
           end)
  ∧ (∀ now2 s2,
       handleConfirmPayment is_image sizeCeiling storedUrl now2 bid w.1.1 s2
       = (w.1.1, s2, [])).
Proof.
  intros Hfile Hfree Hupload sent w.
  subst w. unfold handleConfirmPayment. rewrite Hfile, Hfree, Hupload.
  simpl. fold sent.
  destruct sent as [[ok|e] s1]; simpl; repeat split; try done;
    intros now2 s2; by rewrite Hfile.
Qed.

(** X16. [handleConfirmPayment] sends no booking update and leaves the
    store, the confirmation mark and the shown slip as they are when no file
    is selected, when the payment is already marked confirmed, or when the
    upload of the slip is refused; in the last case it shows the error toast
    and switches loading off. *)
Theorem no_update_without_uploaded_slip (now : Z) (bid : string) (p : page)
    (s : Booking.store) :
  let w := handleConfirmPayment is_image sizeCeiling storedUrl now bid p s in
  (selectedFile p = None ∨ isPaymentConfirmed p = true → w = (p, s, []))
  ∧ (∀ file e,
       selectedFile p = Some file → isPaymentConfirmed p = false →
       uploadSlip is_image sizeCeiling storedUrl file = Booking.Err e →
       w = (setIsLoading false p, s,
            [ToastError "payment.errors.confirmFailed"])
       ∧ isPaymentConfirmed w.1.1 = false
       ∧ paymentSlipUrl w.1.1 = paymentSlipUrl p).
Proof.
  intros w. subst w. unfold handleConfirmPayment. split.
  - intros [-> | Hlocked]; [done|]. rewrite Hlocked.
    by destruct (selectedFile p).
  - intros file e Hfile Hfree Hupload. rewrite Hfile, Hfree, Hupload.
    by destruct p.
Qed.

End Proofs.

Import BookingSamples MoreSamples.

(** X14 on the booking with its slip on record. *)
Lemma slip_on_record_locks_the_page_witness :
  isPaymentConfirmed
    (fetchBooking 1500 (Some "b1") initial_page one_submitted).1.1 = true
  ∧ paymentSlipUrl
      (fetchBooking 1500 (Some "b1") initial_page one_submitted).1.1
    = "/uploads/slips/one.jpg".
Proof.
  assert (Booking.getBooking 1500 "b1" one_submitted
          = (Booking.Ok submitted, <["b1" := submitted]> one_submitted))
    as Hget.
  { vm_compute. reflexivity. }
  destruct (slip_on_record_locks_the_page jpeg_only 10 served served 1500
              "b1" initial_page one_submitted
              (<["b1" := submitted]> one_submitted) submitted
              "/uploads/slips/one.jpg" Hget eq_refl eq_refl)
    as (_ & _ & _ & Hurl & Hlocked & _).
  split; [exact Hlocked | exact Hurl].
Defined.

(** X15 on a slip selected for the booking that awaits its payment. *)
Lemma upload_marks_the_page_confirmed_witness :
  isPaymentConfirmed
    (handleConfirmPayment jpeg_only 10 served 1500 "b1" ready
       one_awaiting).1.1 = true
  ∧ paymentSlipUrl
      (handleConfirmPayment jpeg_only 10 served 1500 "b1" ready
         one_awaiting).1.1
    = "/uploads/slips/one.jpg".
Proof.
  destruct (upload_marks_the_page_confirmed jpeg_only 10 served 1500 "b1"
              ready one_awaiting slip_file "/uploads/slips/one.jpg"
              eq_refl eq_refl eq_refl)
    as (_ & Hmarked & Hurl & _).
  split; [exact Hmarked | exact Hurl].
Defined.

(** X16 on the page without a selected file. *)
Lemma no_update_without_uploaded_slip_witness :
  handleConfirmPayment jpeg_only 10 served 1500 "b1" initial_page one_awaiting
  = (initial_page, one_awaiting, []).
Proof.
  apply (no_update_without_uploaded_slip jpeg_only 10 served 1500 "b1"
           initial_page one_awaiting).
  left. reflexivity.
Defined.

End PaymentPageExtras.

(* ===================================================================== *)
(** ** Properties of the admin page *)
(* ===================================================================== *)

Module AdminVillaExtras.

Import VillaRouter AdminVilla.

Section Proofs.

Variable newVilla : Villa.
Variable schema_ok : Villa → bool.

Lemma num_or_same (n : option Z) (d z : Z) :
  n = Some z → z ≠ 0 ∨ d = 0 → Some (num_or n d) = n.
Proof.
  intros -> Hz. unfold num_or.
  destruct (Z.eqb_spec z 0) as [->|]; [|done].
  destruct Hz; [done|by subst].
Qed.

Lemma bilingual_json_texts (t : Bilingual) :
  get_opt (bilingual_json t) "en" = en t
  ∧ get_opt (bilingual_json t) "th" = th t.
Proof. destruct t as [e h]. split; simpl; [done|by destruct h]. Qed.

Lemma or_else_texts (x : jsval) :
  truthy (get_opt (or_else x empty_texts) "en") = true →
  or_else x empty_texts = x.
Proof. unfold or_else. by destruct (truthy x). Qed.

Lemma texts_given_en (b : villa_body) :
  texts_given b = true →
  truthy (get_opt (b_name b) "en") = true
  ∧ truthy (get_opt (b_title b) "en") = true
  ∧ truthy (get_opt (b_description b) "en") = true.
Proof.
  unfold texts_given. rewrite !andb_true_iff. tauto.
Qed.

(** What [PATCH /] assigns from a form just filled from the villa. *)
Lemma unedited_form_assigns_nothing (villa : Villa) (p d g r t : Z) :
  pricePerNight villa = Some p →
  discountedPrice villa = Some d →
  maxGuests villa = Some g → g ≠ 0 →
  bedrooms villa = Some r → r ≠ 0 →
  bathrooms villa = Some t → t ≠ 0 →
  assigned (body_of_form (form_of_villa villa)) villa = villa.
Proof.
  intros Hp Hd Hg Hg0 Hr Hr0 Ht Ht0.
  set (b := body_of_form (form_of_villa villa)).
  destruct (VillaRouterExtras.assigned_texts b villa) as (Hn & Hti & Hde).
  destruct (VillaRouterExtras.assigned_numbers b villa)
    as (H1 & H2 & H3 & H4 & H5 & H6 & H7).
  destruct (VillaRouterExtras.assigned_payment b villa) as (Hb & Hpp).
  destruct (VillaRouterExtras.assigned_media b villa) as (Hi & Hs & Hro).
  apply VillaRouterExtras.Villa_eq; try done.
  - rewrite Hn. destruct (texts_given b) eqn:Hall; [|done].
    apply texts_given_en in Hall as (Hen & _ & _). by apply or_else_texts.
  - rewrite Hti. destruct (texts_given b) eqn:Hall; [|done].
    apply texts_given_en in Hall as (_ & Hen & _). by apply or_else_texts.
  - rewrite Hde. destruct (texts_given b) eqn:Hall; [|done].
    apply texts_given_en in Hall as (_ & _ & Hen). by apply or_else_texts.
  - rewrite VillaRouterExtras.assigned_beachfront.
    change (b_beachfront b)
      with (or_else (bilingual_json (beachfront villa)) empty_texts).
    change (or_else (bilingual_json (beachfront villa)) empty_texts)
      with (bilingual_json (beachfront villa)).
    destruct (bilingual_json_texts (beachfront villa)) as [-> ->].
    change (truthy (bilingual_json (beachfront villa))) with true.
    unfold or_else. destruct (beachfront villa) as [e h]. simpl.
    by destruct (truthy e), (truthy h).
  - rewrite H1. simpl. apply num_or_same with p; auto.
  - rewrite H2. simpl. apply num_or_same with d; auto.
  - rewrite H4. simpl. apply num_or_same with g; auto.
  - rewrite H5. simpl. apply num_or_same with r; auto.
  - rewrite H7. simpl. apply num_or_same with t; auto.
Qed.

(** X17. A form that is filled from the stored villa and submitted as it is
    leaves the stored villa exactly as it was, whatever the answer, as long
    as the villa has its two prices set and its numbers of guests, bedrooms
    and bathrooms set and not zero. *)
Theorem unedited_form_keeps_villa (villa : Villa) (shown : page)
    (p d g r t : Z) :
  pricePerNight villa = Some p →
  discountedPrice villa = Some d →
  maxGuests villa = Some g → g ≠ 0 →
  bedrooms villa = Some r → r ≠ 0 →
  bathrooms villa = Some t → t ≠ 0 →
  formData shown = syncFormData (Some villa) defaultFormData →
  (handleSubmit newVilla schema_ok shown (Some villa)).1.2 = Some villa.
Proof.
  intros Hp Hd Hg Hg0 Hr Hr0 Ht Ht0 Hform.
  unfold handleSubmit. simpl. rewrite Hform. simpl.
  rewrite VillaRouterProofs.patch_villa_cases. simpl.
  rewrite (unedited_form_assigns_nothing villa p d g r t) by done.
  destruct (discount_rejected _); [done|].
  by destruct (schema_ok villa).
Qed.

(** X18. [handleSubmit] sends a body with both prices and without
    [minRooms]: a form with [0 < discountedPrice] and
    [pricePerNight ≤ discountedPrice] is refused, nothing is saved and the
    page shows the message of the answer; any other form passes both checks
    and, the save succeeding, is saved with a success toast. A saved form
    never changes the minimum of rooms, the price reduction per room, the
    bank details, PromptPay, the images, the slides or the rooms. *)
Theorem form_submit_outcome (shown : page) (db : option Villa) :
  let f := formData shown in
  let old := default newVilla db in
  let doc := assigned (body_of_form f) old in
  let w := handleSubmit newVilla schema_ok shown db in
  (0 < form_discountedPrice f ∧ form_pricePerNight f ≤ form_discountedPrice f →
   w = (mkPage f false "Discounted price must be less than regular price",
        db, []))
  ∧ (¬ (0 < form_discountedPrice f
        ∧ form_pricePerNight f ≤ form_discountedPrice f) →
     schema_ok doc = true →
     w = (mkPage f false "", Some doc,
          [ToastSuccess "Villa details updated successfully"])
     ∧ minRooms doc = minRooms old
     ∧ priceReductionPerRoom doc = priceReductionPerRoom old
     ∧ bankDetails doc = bankDetails old
     ∧ promptPay doc = promptPay old
     ∧ backgroundImage doc = backgroundImage old
     ∧ slideImages doc = slideImages old
     ∧ rooms doc = rooms old).
Proof.
  intros f old doc w.
  pose proof (VillaRouterProofs.discount_rejected_iff (body_of_form f)
                (form_discountedPrice f) (form_pricePerNight f)
                eq_refl eq_refl) as Hiff.
  assert (rooms_rejected (body_of_form f) = false) as Hrooms by done.
  subst w. unfold handleSubmit. simpl. fold f.
  rewrite VillaRouterProofs.patch_villa_cases. rewrite Hrooms.
  split.
  - intros Hbad. apply Hiff in Hbad. by rewrite Hbad.
  - intros Hgood Hsave.
    destruct (discount_rejected (body_of_form f)); [by destruct Hgood; apply Hiff|].
    simpl. fold old. fold doc. rewrite Hsave. simpl.
    split; [done|].
    destruct (VillaRouterExtras.assigned_numbers (body_of_form f) old)
      as (_ & _ & H3 & _ & _ & H6 & _).
    destruct (VillaRouterExtras.assigned_payment (body_of_form f) old)
      as (Hb & Hpp).
    destruct (VillaRouterExtras.assigned_media (body_of_form f) old)
      as (Hi & Hs & Hro).
    by repeat split.
Qed.

(** *** The slides of the form *)

Lemma filter_indexed_all {A : Type} (f : nat → A → option A) (l : list A) :
  (∀ i x, f i x = Some x) → omap id (imap f l) = l.
Proof.
  revert f. induction l as [|x l IH]; intros f Hf; [done|].
  simpl. rewrite Hf. simpl. f_equal. apply IH. intros i y. apply Hf.
Qed.

(** [filter((_, i) => i !== index)] is [splice(index, 1)]. *)
Lemma filter_indexed_delete {A : Type} (l : list A) (index : nat) :
  filter_indexed (λ _ i, negb (i =? index)%nat) l = delete index l.
Proof.
  unfold filter_indexed. revert index.
  induction l as [|x l IH]; intros index; [done|].
  destruct index as [|index]; simpl.
  - by apply filter_indexed_all.
  - f_equal. apply IH.
Qed.

(** X19. [handleDeleteSlideImage] keeps the slides of the form equal to the
    stored ones: when the form shows the stored slides before the call, it
    shows the stored slides after it, whether the user confirms or not and
    whether the server deletes the slide (the form then filters out the same
    position the server splices out) or refuses. Submitting is switched off
    after a confirmed call. *)
Theorem slide_deletion_keeps_form_in_sync (confirmed : bool) (index : nat)
    (shown : page) (villa : Villa) :
  form_slideImages (formData shown) = slideImages villa →
  let w := handleDeleteSlideImage schema_ok confirmed index shown
             (Some villa) in
  ∃ v', w.1.2 = Some v'
        ∧ form_slideImages (formData w.1.1) = slideImages v'
        ∧ (confirmed = true → isSubmitting w.1.1 = false)
        ∧ (confirmed = false → w = (shown, Some villa, [])).
Proof.
  intros Hsync w. subst w. unfold handleDeleteSlideImage.
  destruct confirmed; simpl; [|by exists villa].
  unfold delete_slide, delete_slide_body, handle, mbind, M_bind, findOne,
    reject_if, reply, mret, M_ret, save.
  simpl.
  destruct (opt_truthy (mjoin (slideImages villa !! index))); simpl;
    [|by exists villa].
  destruct (schema_ok _); simpl; [|by exists villa].
  eexists. split; [done|]. simpl.
  rewrite filter_indexed_delete, Hsync. done.
Qed.

End Proofs.

Import Samples MoreSamples.

(** X17 on the default villa with a discounted price of 0. *)
Lemma unedited_form_keeps_villa_witness :
  (handleSubmit blank lenient loaded (Some priced)).1.2 = Some priced.
Proof.
  apply (unedited_form_keeps_villa blank lenient priced loaded 299 0 6 3 3);
    try reflexivity; lia.
Defined.

(** X18 on a form with a discounted price of 500 over a price of 299. *)
Lemma form_submit_outcome_witness :
  handleSubmit blank lenient overpriced (Some paradise)
  = (mkPage (formData overpriced) false
            "Discounted price must be less than regular price",
     Some paradise, []).
Proof.
  apply (form_submit_outcome blank lenient overpriced (Some paradise)).
  simpl. lia.
Defined.

(** X19 on the third of the five slides. *)
Lemma slide_deletion_keeps_form_in_sync_witness :
  ∃ v', (handleDeleteSlideImage lenient true 2 showing_gallery
           (Some gallery)).1.2 = Some v'
        ∧ form_slideImages
            (formData (handleDeleteSlideImage lenient true 2 showing_gallery
                         (Some gallery)).1.1)
          = slideImages v'.
Proof.
  destruct (slide_deletion_keeps_form_in_sync lenient true 2 showing_gallery
              gallery eq_refl) as (v' & Hstore & Hform & _).
  exists v'. split; [exact Hstore | exact Hform].
Defined.

End AdminVillaExtras.
